(** * The menu post generator (AI-Content-Generator/main.py)

    A shallow embedding of the Flask application: the Python values it
    handles, the builtins it calls, the three request handlers
    ([generate_posts], [upload_image], [export_posts]) and the post
    generator [generate_multiple_social_media_posts], followed by the
    properties of the post records and of the exports.

    Python strings are lists of code points; values coming out of
    [json.loads] are the inductive [pyval]; the hosted services (chat
    completion, image generation), [uuid.uuid4] and the clock are oracles
    indexed by the number of calls made so far, threaded through a state
    and exception monad. *)

From Stdlib Require Import ZArith NArith List Ascii String DecimalString Lia Bool.
From stdpp Require Import base list gmap strings.

Set Warnings "-register-all".
Local Open Scope N_scope.

(** ** Python strings *)

Module PyStr.

(** A [str] is its sequence of code points. *)
Definition pystr := list N.

(** An ASCII literal of the source. *)
Definition lit (s : string) : pystr := map N_of_ascii (list_ascii_of_string s).

(** [a == b] *)
Fixpoint pystr_eqb (a b : pystr) : bool :=
  match a, b with
  | [], [] => true
  | x :: a', y :: b' => (x =? y) && pystr_eqb a' b'
  | _, _ => false
  end.

(** [c in xs] for a list of strings. *)
Definition str_in (s : pystr) (xs : list pystr) : bool := existsb (pystr_eqb s) xs.

(** The code points [str.strip()] removes: those for which
    [str.isspace] holds. *)
Definition is_space (c : N) : bool :=
  ((9 <=? c) && (c <=? 13)) || ((28 <=? c) && (c <=? 32))
  || (c =? 133) || (c =? 160) || (c =? 5760)
  || ((8192 <=? c) && (c <=? 8202))
  || (c =? 8232) || (c =? 8233) || (c =? 8239) || (c =? 8287) || (c =? 12288).

Definition is_hash (c : N) : bool := c =? 35.

(** [s.lstrip(chars)]: drop the longest prefix of code points in the set. *)
Fixpoint lstrip_by (p : N -> bool) (s : pystr) : pystr :=
  match s with
  | [] => []
  | c :: s' => if p c then lstrip_by p s' else s
  end.

(** [s.rstrip(chars)]: drop the longest suffix of code points in the set. *)
Fixpoint rstrip_by (p : N -> bool) (s : pystr) : pystr :=
  match s with
  | [] => []
  | c :: s' =>
      match rstrip_by p s' with
      | [] => if p c then [] else [c]
      | r => c :: r
      end
  end.

(** [s.strip()] *)
Definition py_strip (s : pystr) : pystr := rstrip_by is_space (lstrip_by is_space s).

(** [s.lstrip('#')] *)
Definition py_lstrip_hash (s : pystr) : pystr := lstrip_by is_hash s.

Definition is_ascii (c : N) : bool := c <? 128.

Definition lower_ascii (c : N) : N :=
  if (65 <=? c) && (c <=? 90) then c + 32 else c.

(** [sep.join(parts)] *)
Fixpoint py_join (sep : pystr) (parts : list pystr) : pystr :=
  match parts with
  | [] => []
  | [p] => p
  | p :: ps => p ++ sep ++ py_join sep ps
  end.

(** [s.rsplit(sep, 1)] for a one-character separator: [Some (a, b)] for
    the two-element result [[a, b]] cut at the last separator, [None]
    for the one-element result when the separator does not occur. *)
Fixpoint rsplit1 (sep : N) (s : pystr) : option (pystr * pystr) :=
  match s with
  | [] => None
  | c :: s' =>
      match rsplit1 sep s' with
      | Some (a, b) => Some (c :: a, b)
      | None => if c =? sep then Some ([], s') else None
      end
  end.

(** The code points UTF-8 has no encoding for: the surrogates, U+D800
    to U+DFFF. *)
Definition is_surrogate (c : N) : bool := (55296 <=? c) && (c <=? 57343).

(** [s.encode()] returns: with a surrogate in [s] it raises
    [UnicodeEncodeError]. *)
Definition utf8_encodable (s : pystr) : bool := forallb (fun c => negb (is_surrogate c)) s.

(** [str(n)] for an [int]. *)
Definition str_of_Z (z : Z) : pystr := lit (NilZero.string_of_int (Z.to_int z)).

End PyStr.
Export PyStr.

(** ** Python values *)

(** What [json.loads] builds, and what the handlers keep in the session.
    A [float] is carried by its [repr], which is all the program looks
    at; a [dict] keeps its items in insertion order. *)
Inductive pyval :=
| PNone
| PBool (b : bool)
| PInt (z : Z)
| PFloat (repr : pystr)
| PStr (s : pystr)
| PList (l : list pyval)
| PDict (d : list (pystr * pyval)).

(** The builtins of the interpreter that are not spelled out here. *)
Record runtime := {
  (** [str.lower()] on a string holding a code point outside ASCII *)
  unicode_lower : pystr -> pystr;
  (** [repr(s)] of a string, as it shows inside the [str()] of a list or dict *)
  repr_str : pystr -> pystr;
  (** [int(s)] of a form string: [None] when it raises [ValueError] *)
  int_of_str : pystr -> option Z
}.

Module Dict.

Definition dict := list (pystr * pyval).

(** [d.get(k)] *)
Fixpoint get (k : pystr) (d : dict) : option pyval :=
  match d with
  | [] => None
  | (k', v) :: d' => if pystr_eqb k k' then Some v else get k d'
  end.

(** [d.get(k, dflt)] *)
Definition get_default (k : pystr) (dflt : pyval) (d : dict) : pyval :=
  match get k d with
  | Some v => v
  | None => dflt
  end.

(** [k in d] *)
Definition has_key (k : pystr) (d : dict) : bool :=
  match get k d with
  | Some _ => true
  | None => false
  end.

(** [d[k] = v]: an existing key keeps its place, a new one goes last. *)
Fixpoint set (k : pystr) (v : pyval) (d : dict) : dict :=
  match d with
  | [] => [(k, v)]
  | (k', v') :: d' => if pystr_eqb k k' then (k', v) :: d' else (k', v') :: set k v d'
  end.

Definition keys (d : dict) : list pystr := map fst d.

End Dict.

Section Builtins.

Context (rt : runtime).

(** [s.lower()] *)
Definition py_lower (s : pystr) : pystr :=
  if forallb is_ascii s then map lower_ascii s else unicode_lower rt s.

(** [repr(v)] *)
Fixpoint py_repr (v : pyval) : pystr :=
  match v with
  | PNone => lit "None"
  | PBool true => lit "True"
  | PBool false => lit "False"
  | PInt z => str_of_Z z
  | PFloat r => r
  | PStr s => repr_str rt s
  | PList l => lit "[" ++ py_join (lit ", ") (map py_repr l) ++ lit "]"
  | PDict d =>
      lit "{"
      ++ py_join (lit ", ")
           (map (fun kv => repr_str rt (fst kv) ++ lit ": " ++ py_repr (snd kv)) d)
      ++ lit "}"
  end.

(** [str(v)] *)
Definition py_str (v : pyval) : pystr :=
  match v with
  | PStr s => s
  | _ => py_repr v
  end.

(** The truth value of [v] in a condition. *)
Definition py_bool (v : pyval) : bool :=
  match v with
  | PNone => false
  | PBool b => b
  | PInt z => negb (z =? 0)%Z
  | PFloat r => negb (str_in r [lit "0.0"; lit "-0.0"])
  | PStr s => negb (pystr_eqb s [])
  | PList l => match l with [] => false | _ => true end
  | PDict d => match d with [] => false | _ => true end
  end.

(** What a [for] loop over [v] visits: the items of a list, the
    one-character strings of a string, the keys of a dict; [None] when
    [v] is not iterable and the loop raises [TypeError]. *)
Definition py_iter (v : pyval) : option (list pyval) :=
  match v with
  | PList l => Some l
  | PStr s => Some (map (fun c => PStr [c]) s)
  | PDict d => Some (map PStr (Dict.keys d))
  | _ => None
  end.

(** [l[:k]] *)
Definition slice_to {A} (k : Z) (l : list A) : list A :=
  if (0 <=? k)%Z then take (Z.to_nat k) l
  else take (length l - Z.to_nat (- k)) l.

End Builtins.

(** ** The services outside the program, and the monad of the handlers *)

Inductive exn :=
| ValueError (msg : pystr)
| JSONDecodeError
| TypeError
| AttributeError
| UnicodeEncodeError
| ServiceError.

(** The variable parts of the prompt sent to the chat completion. *)
Record prompt := {
  prompt_posts_needed : Z;
  prompt_lang_instruction : pystr;
  prompt_variant_instruction : pystr;
  prompt_menu_text : pystr
}.

(** One answer of [openai_client.chat.completions.create], read through
    [response.choices[0].message.content] and [json.loads]. *)
Inductive completion :=
| CompletionFails                         (* the call, or the access to the content, raises *)
| ContentNone                             (* the content is None *)
| ContentText (parsed : option pyval).    (* json.loads(content); None: JSONDecodeError *)

(** One answer of [openai_client.images.generate]. *)
Inductive image_answer :=
| ImageFails                              (* the call raises *)
| ImageNoData                             (* no response, or an empty data list *)
| ImageData (url : option pystr).         (* response.data[0].url *)

(** The services, each a function of the number of calls made before. *)
Record services := {
  chat_completion : nat -> prompt -> completion;
  images_generate : nat -> pyval -> image_answer;
  uuid4 : nat -> pystr;                   (* str(uuid.uuid4()) *)
  now_isoformat : nat -> pystr            (* datetime.now().isoformat() *)
}.

(** The Flask session of one user. *)
Record session := {
  current_posts : option (list Dict.dict);
  current_menu_text : option pystr;
  current_language : option pystr;
  uploaded_images : option (gmap pystr pystr);
  flashes : list (pystr * pystr)          (* (category, message), oldest first *)
}.

(** Everything a handler can read or change. *)
Record state := {
  sess : session;
  completion_calls : nat;
  image_calls : nat;
  uuid_calls : nat;
  clock_reads : nat;
  saved_files : list (pystr * pystr)      (* (path, name of the uploaded file) *)
}.

Inductive outcome (A : Type) :=
| Returned (a : A)
| Raised (e : exn).
Arguments Returned {A} a.
Arguments Raised {A} e.

Module Py.

(** A computation that reads and changes the state and returns or raises. *)
Definition M (A : Type) : Type := state -> outcome A * state.

Definition ret {A} (a : A) : M A := fun st => (Returned a, st).

Definition raise {A} (e : exn) : M A := fun st => (Raised e, st).

Definition bind {A B} (m : M A) (k : A -> M B) : M B :=
  fun st =>
    match m st with
    | (Returned a, st') => k a st'
    | (Raised e, st') => (Raised e, st')
    end.

(** [try: m except ...: h e] *)
Definition try_except {A} (m : M A) (h : exn -> M A) : M A :=
  fun st =>
    match m st with
    | (Returned a, st') => (Returned a, st')
    | (Raised e, st') => h e st'
    end.

Definition get_state : M state := fun st => (Returned st, st).

Definition modify (f : state -> state) : M unit := fun st => (Returned tt, f st).

End Py.
Import Py.

Declare Scope py_scope.
Delimit Scope py_scope with py.
Notation "x <- m ;; k" := (bind m (fun x => k))
  (at level 100, m at next level, right associativity) : py_scope.
Notation "m ;;; k" := (bind m (fun _ => k))
  (at level 100, right associativity) : py_scope.
Local Open Scope py_scope.

Definition set_sess (s : session) (st : state) : state :=
  {| sess := s; completion_calls := completion_calls st; image_calls := image_calls st;
     uuid_calls := uuid_calls st; clock_reads := clock_reads st;
     saved_files := saved_files st |}.

Definition tick_completion (st : state) : state :=
  {| sess := sess st; completion_calls := S (completion_calls st);
     image_calls := image_calls st; uuid_calls := uuid_calls st;
     clock_reads := clock_reads st; saved_files := saved_files st |}.

Definition tick_image (st : state) : state :=
  {| sess := sess st; completion_calls := completion_calls st;
     image_calls := S (image_calls st); uuid_calls := uuid_calls st;
     clock_reads := clock_reads st; saved_files := saved_files st |}.

Definition tick_uuid (st : state) : state :=
  {| sess := sess st; completion_calls := completion_calls st;
     image_calls := image_calls st; uuid_calls := S (uuid_calls st);
     clock_reads := clock_reads st; saved_files := saved_files st |}.

Definition tick_clock (st : state) : state :=
  {| sess := sess st; completion_calls := completion_calls st;
     image_calls := image_calls st; uuid_calls := uuid_calls st;
     clock_reads := S (clock_reads st); saved_files := saved_files st |}.

Definition add_saved_file (f : pystr * pystr) (st : state) : state :=
  {| sess := sess st; completion_calls := completion_calls st;
     image_calls := image_calls st; uuid_calls := uuid_calls st;
     clock_reads := clock_reads st; saved_files := saved_files st ++ [f] |}.

(** ** The post generator *)

Definition berlin_tags : list pystr :=
  [lit "berlineats"; lit "mitte"; lit "kreuzberg"; lit "berlinfoodie"; lit "berlin"].

Definition default_prompt : pystr :=
  lit "Professional food photography of restaurant dish, appetizing and well-plated".

(** The two captions of the fallback post end in U+1F374 U+2728. *)
Definition fallback_caption : pystr :=
  lit "Check out our amazing menu! Come visit us today! " ++ [127860; 10024].

Definition fallback_caption_german : pystr :=
  lit "Schaut euch unser fantastisches Men" ++ [252]
  ++ lit " an! Besucht uns heute! " ++ [127860; 10024].

Section Generator.

Context (rt : runtime) (ext : services).

(** The first loop over the raw hashtags: keep the truthy ones whose
    [str(tag).strip().lstrip('#')] is not empty. *)
Fixpoint clean_tags (hashtags : list pyval) : list pystr :=
  match hashtags with
  | [] => []
  | tag :: rest =>
      if py_bool tag then
        let clean_tag := py_lstrip_hash (py_strip (py_str rt tag)) in
        if negb (pystr_eqb clean_tag []) then clean_tag :: clean_tags rest
        else clean_tags rest
      else clean_tags rest
  end.

Definition has_berlin_tag (tags : list pystr) : bool :=
  existsb (fun tag => str_in (py_lower rt tag) berlin_tags) tags.

(** [normalized_tags[-1] = x], run on lists of three or more items only. *)
Definition set_last (x : pystr) (tags : list pystr) : list pystr :=
  <[(length tags - 1)%nat := x]> tags.

Definition ensure_berlin_tag (normalized_tags : list pystr) : list pystr :=
  if negb (has_berlin_tag normalized_tags) then
    if (3 <=? length normalized_tags)%nat then set_last (lit "BerlinEats") normalized_tags
    else normalized_tags ++ [lit "BerlinEats"]
  else normalized_tags.

(** [while len(hashtags) < 3: ...], unrolled over the number of missing tags. *)
Fixpoint fill_hashtags (missing : nat) (hashtags : list pystr) : list pystr :=
  match missing with
  | O => hashtags
  | S k =>
      let lowered := map (py_lower rt) hashtags in
      if negb (str_in (lit "foodie") lowered) then fill_hashtags k (hashtags ++ [lit "foodie"])
      else if negb (str_in (lit "delicious") lowered) then
             fill_hashtags k (hashtags ++ [lit "delicious"])
      else fill_hashtags k (hashtags ++ [lit "restaurant"])
  end.

(** Lines 261-294: the value of [hashtags] a post is built with. *)
Definition normalize_hashtags (hashtags : pyval) : list pystr :=
  match hashtags with
  | PList l =>
      let normalized_tags := ensure_berlin_tag (clean_tags l) in
      let hashtags := take 3 normalized_tags in
      fill_hashtags (3 - length hashtags) hashtags
  | _ => [lit "BerlinEats"; lit "foodie"; lit "delicious"]
  end.

Definition call_images (prompt : pyval) : M image_answer :=
  fun st => (Returned (images_generate ext (image_calls st) prompt), tick_image st).

Definition call_completion (p : prompt) : M completion :=
  fun st => (Returned (chat_completion ext (completion_calls st) p), tick_completion st).

Definition new_uuid : M pystr :=
  fun st => (Returned (uuid4 ext (uuid_calls st)), tick_uuid st).

(** [generate_food_image]: the URL of the image, or the exception of
    the service raised again. *)
Definition generate_food_image (prompt : pyval) : M pyval :=
  try_except
    (response <- call_images prompt ;;
     match response with
     | ImageFails => raise ServiceError
     | ImageNoData => raise (ValueError (lit "No image data returned from DALL-E"))
     | ImageData (Some url) => ret (PStr url)
     | ImageData None => ret PNone
     end)
    (fun e => raise e).

(** Lines 261-318: the post made from one item that is a dict with a caption. *)
Definition build_post (language : pystr) (post_data : Dict.dict) : M Dict.dict :=
  let hashtags := normalize_hashtags (Dict.get_default (lit "hashtags") (PList []) post_data) in
  let image_prompt := Dict.get_default (lit "image_prompt") (PStr []) post_data in
  image_url <- (if py_bool image_prompt then
                  try_except (generate_food_image image_prompt) (fun _ => ret PNone)
                else ret PNone) ;;
  post_id <- new_uuid ;;
  let post :=
    [ (lit "caption", PStr (py_str rt (Dict.get_default (lit "caption") (PStr []) post_data)));
      (lit "hashtags", PList (map PStr hashtags));
      (lit "image_url", image_url);
      (lit "image_prompt", image_prompt);
      (lit "variant", Dict.get_default (lit "variant") (PStr []) post_data);
      (lit "post_id", PStr post_id) ] in
  if pystr_eqb language (lit "both")
     && py_bool (Dict.get_default (lit "caption_german") PNone post_data)
  then ret (Dict.set (lit "caption_german")
              (PStr (py_str rt (Dict.get_default (lit "caption_german") (PStr []) post_data)))
              post)
  else ret post.

(** Lines 257-318: the loop over [posts_data]. *)
Fixpoint clean_posts (language : pystr) (posts_data : list pyval) (posts : list Dict.dict)
  : M (list Dict.dict) :=
  match posts_data with
  | [] => ret posts
  | post_data :: rest =>
      match post_data with
      | PDict d =>
          if Dict.has_key (lit "caption") d then
            post <- build_post language d ;;
            clean_posts language rest (posts ++ [post])
          else clean_posts language rest posts
      | _ => clean_posts language rest posts
      end
  end.

(** Lines 322-339: one fallback post. *)
Definition fallback_post (language : pystr) : M Dict.dict :=
  default_image <- try_except (generate_food_image (PStr default_prompt))
                              (fun _ => ret PNone) ;;
  post_id <- new_uuid ;;
  let post :=
    [ (lit "caption", PStr fallback_caption);
      (lit "hashtags", PList [PStr (lit "BerlinEats"); PStr (lit "foodie"); PStr (lit "Mitte")]);
      (lit "image_url", default_image);
      (lit "image_prompt", PStr default_prompt);
      (lit "variant", PStr (lit "casual"));
      (lit "post_id", PStr post_id) ] in
  if pystr_eqb language (lit "both")
  then ret (Dict.set (lit "caption_german") (PStr fallback_caption_german) post)
  else ret post.

(** [while len(posts) < actual_posts_needed: ...], unrolled over the
    number of missing posts. *)
Fixpoint pad_posts (language : pystr) (missing : nat) (posts : list Dict.dict)
  : M (list Dict.dict) :=
  match missing with
  | O => ret posts
  | S k =>
      post <- fallback_post language ;;
      pad_posts language k (posts ++ [post])
  end.

Definition lang_instruction (language : pystr) : pystr :=
  if pystr_eqb language (lit "german") then lit "Create posts in German language."
  else if pystr_eqb language (lit "both") then
    lit "Create posts in English first, then provide German translations."
  else lit "Create posts in English.".

Definition variant_instruction (ab_test_mode : bool) : pystr :=
  if ab_test_mode then
    lit " For each post concept, create TWO variants - one casual tone and one professional tone. This will result in pairs of posts for A/B testing."
  else [].

Definition actual_posts_needed (num_posts : Z) (ab_test_mode : bool) : Z :=
  if ab_test_mode then (num_posts * 2)%Z else num_posts.

(** Lines 195-233: the prompt, by the values put into its template. *)
Definition build_prompt (menu_text : pystr) (num_posts : Z) (language : pystr)
    (ab_test_mode : bool) : prompt :=
  {| prompt_posts_needed := actual_posts_needed num_posts ab_test_mode;
     prompt_lang_instruction := lang_instruction language;
     prompt_variant_instruction := variant_instruction ab_test_mode;
     prompt_menu_text := menu_text |}.

(** The body of the [try] of [generate_multiple_social_media_posts]. *)
Definition generate_body (menu_text : pystr) (num_posts : Z) (language : pystr)
    (ab_test_mode : bool) : M (list Dict.dict) :=
  let needed := actual_posts_needed num_posts ab_test_mode in
  response <- call_completion (build_prompt menu_text num_posts language ab_test_mode) ;;
  result <- match response with
            | CompletionFails => raise ServiceError
            | ContentNone => raise (ValueError (lit "Empty response from OpenAI"))
            | ContentText None => raise JSONDecodeError
            | ContentText (Some v) => ret v
            end ;;
  posts_data <- match result with
                | PDict d => ret (Dict.get_default (lit "posts") (PList []) d)
                | _ => raise AttributeError
                end ;;
  items <- match py_iter posts_data with
           | Some items => ret items
           | None => raise TypeError
           end ;;
  posts <- clean_posts language items [] ;;
  posts <- pad_posts language (Z.to_nat (needed - Z.of_nat (length posts))) posts ;;
  ret (slice_to needed posts).

Definition generate_multiple_social_media_posts (menu_text : pystr) (num_posts : Z)
    (language : pystr) (ab_test_mode : bool) : M (list Dict.dict) :=
  try_except
    (generate_body menu_text num_posts language ab_test_mode)
    (fun e =>
       match e with
       | JSONDecodeError => raise (ValueError (lit "Invalid response format from AI service"))
       | _ => raise (ValueError (lit "Failed to generate social media posts"))
       end).

End Generator.

(** ** The request handlers *)

Definition ALLOWED_EXTENSIONS : list pystr :=
  [lit "png"; lit "jpg"; lit "jpeg"; lit "gif"; lit "webp"].

Definition UPLOAD_FOLDER : pystr := lit "/tmp/uploads".

Definition csv_headers : list pystr :=
  [lit "Post_Index"; lit "Caption_EN"; lit "Caption_DE"; lit "Hashtags"; lit "Image_URL";
   lit "Image_Prompt"].

(** What a handler answers. A file sent back is given by the data handed
    to the serializer: the rows passed to [csv.writer.writerow], in order,
    or the value passed to [json.dumps]. The bytes sent are the UTF-8
    encoding of the text the serializer writes: [json.dumps] writes ASCII
    only, the text of the CSV writer has to be encodable. *)
Inductive response :=
| Redirect (endpoint : pystr)
| RenderTemplate (name : pystr) (context : Dict.dict)
| Jsonify (body : Dict.dict) (status : N)
| SendCsv (rows : list (list pyval)) (download_name : pystr)
| SendJson (data : pyval) (download_name : pystr).

(** The form posted to /generate; [None] is a missing field. *)
Record generate_form := {
  form_menu_text : option pystr;
  form_num_posts : option pystr;
  form_language : option pystr;
  form_ab_test_mode : option pystr
}.

(** An uploaded file, as far as the handler looks at it. *)
Record file_storage := { filename : pystr }.

(** A request to /upload_image/<int:post_index>. *)
Record upload_request := {
  post_index : nat;
  files_image : option file_storage
}.

Definition set_current (posts : list Dict.dict) (menu_text language : pystr) (s : session)
  : session :=
  {| current_posts := Some posts; current_menu_text := Some menu_text;
     current_language := Some language; uploaded_images := uploaded_images s;
     flashes := flashes s |}.

Definition set_posts (posts : list Dict.dict) (s : session) : session :=
  {| current_posts := Some posts; current_menu_text := current_menu_text s;
     current_language := current_language s; uploaded_images := uploaded_images s;
     flashes := flashes s |}.

Definition set_uploaded (imgs : gmap pystr pystr) (s : session) : session :=
  {| current_posts := current_posts s; current_menu_text := current_menu_text s;
     current_language := current_language s; uploaded_images := Some imgs;
     flashes := flashes s |}.

Definition add_flash (category message : pystr) (s : session) : session :=
  {| current_posts := current_posts s; current_menu_text := current_menu_text s;
     current_language := current_language s; uploaded_images := uploaded_images s;
     flashes := flashes s ++ [(category, message)] |}.

(** [flash(message, category)] *)
Definition flash (message category : pystr) : M unit :=
  modify (fun st => set_sess (add_flash category message (sess st)) st).

Definition image_route (name : pystr) : pystr := lit "/uploaded_image/" ++ name.

Section Handlers.

Context (rt : runtime) (ext : services).

(** Lines 64-67: the images uploaded before take the place of the generated ones. *)
Definition merge_uploaded (uploaded : gmap pystr pystr) (posts : list Dict.dict)
  : list Dict.dict :=
  imap (fun i post =>
          match uploaded !! str_of_Z (Z.of_nat i) with
          | Some name => Dict.set (lit "image_url") (PStr (image_route name)) post
          | None => post
          end) posts.

(** [int(request.form.get('num_posts', 3))] *)
Definition read_num_posts (field : option pystr) : M Z :=
  match field with
  | None => ret 3%Z
  | Some s =>
      match int_of_str rt s with
      | Some z => ret z
      | None => raise (ValueError (lit "invalid literal for int() with base 10"))
      end
  end.

Definition generate_posts (form : generate_form) : M response :=
  try_except
    (let menu_text := py_strip (default [] (form_menu_text form)) in
     num_posts <- read_num_posts (form_num_posts form) ;;
     let language := default (lit "english") (form_language form) in
     if pystr_eqb menu_text [] then
       flash (lit "Please enter your restaurant menu text.") (lit "error") ;;;
       ret (Redirect (lit "index"))
     else if (num_posts <? 1)%Z || (10 <? num_posts)%Z then
       flash (lit "Number of posts must be between 1 and 10.") (lit "error") ;;;
       ret (Redirect (lit "index"))
     else
       let ab_test_mode := bool_decide (form_ab_test_mode form = Some (lit "on")) in
       posts <- generate_multiple_social_media_posts rt ext menu_text num_posts language
                  ab_test_mode ;;
       match posts with
       | [] =>
           flash (lit "Failed to generate posts. Please try again.") (lit "error") ;;;
           ret (Redirect (lit "index"))
       | _ =>
           st <- get_state ;;
           let posts := merge_uploaded (default ∅ (uploaded_images (sess st))) posts in
           modify (fun st => set_sess (set_current posts menu_text language (sess st)) st) ;;;
           ret (RenderTemplate (lit "results.html")
                  [ (lit "posts", PList (map PDict posts));
                    (lit "menu_text", PStr menu_text);
                    (lit "language", PStr language);
                    (lit "ab_test_mode", PBool ab_test_mode) ])
       end)
    (fun e =>
       match e with
       | ValueError _ | JSONDecodeError | UnicodeEncodeError =>
           flash (lit "Invalid number of posts. Please enter a valid number.") (lit "error") ;;;
           ret (Redirect (lit "index"))
       | _ =>
           flash (lit "Sorry, we encountered an issue generating your posts. Please try again.")
                 (lit "error") ;;;
           ret (Redirect (lit "index"))
       end).

(** The part of [filename] after its last dot, when it has a dot. *)
Definition extension (name : pystr) : option pystr := snd <$> rsplit1 46 name.

Definition allowed_file (name : pystr) : bool :=
  existsb (N.eqb 46) name
  && match extension name with
     | Some ext_part => str_in (py_lower rt ext_part) ALLOWED_EXTENSIONS
     | None => false
     end.

(** [bool(file)] of a werkzeug FileStorage: whether it has a file name. *)
Definition file_bool (file : file_storage) : bool := negb (pystr_eqb (filename file) []).

(** Lines 110-111: the post at [post_index], when there is one, gets the new image. *)
Definition set_post_image (i : nat) (url : pystr) (posts : list Dict.dict) : list Dict.dict :=
  if (i <? length posts)%nat then
    match posts !! i with
    | Some post => <[i := Dict.set (lit "image_url") (PStr url) post]> posts
    | None => posts
    end
  else posts.

Definition error_body (message : pystr) : Dict.dict := [(lit "error", PStr message)].

Definition upload_image (req : upload_request) : M response :=
  match files_image req with
  | None => ret (Jsonify (error_body (lit "No file selected")) 400)
  | Some file =>
      if pystr_eqb (filename file) [] then
        ret (Jsonify (error_body (lit "No file selected")) 400)
      else if file_bool file && py_bool (PStr (filename file)) && allowed_file (filename file)
      then
        id <- new_uuid ext ;;
        let name := id ++ lit "." ++ py_lower rt (default [] (extension (filename file))) in
        let filepath := UPLOAD_FOLDER ++ lit "/" ++ name in
        modify (add_saved_file (filepath, filename file)) ;;;
        modify (fun st =>
                  let s := sess st in
                  let imgs := default ∅ (uploaded_images s) in
                  set_sess (set_uploaded (<[str_of_Z (Z.of_nat (post_index req)) := name]> imgs) s)
                           st) ;;;
        modify (fun st =>
                  match current_posts (sess st) with
                  | Some posts =>
                      set_sess (set_posts (set_post_image (post_index req) (image_route name)
                                             posts) (sess st)) st
                  | None => st
                  end) ;;;
        ret (Jsonify [ (lit "success", PBool true); (lit "filename", PStr name);
                       (lit "url", PStr (image_route name)) ] 200)
      else ret (Jsonify (error_body (lit "Invalid file type")) 400)
  end.

(** [', '.join(v)]: [None] when [v] is not an iterable of strings and
    the call raises [TypeError]. *)
Definition join_hashtags (v : pyval) : option pystr :=
  items ← py_iter v;
  strs ← mapM (fun item => match item with PStr s => Some s | _ => None end) items;
  Some (py_join (lit ", ") strs).

(** The row written for the post at index [i]. *)
Definition csv_row (i : nat) (post : Dict.dict) : option (list pyval) :=
  tags ← join_hashtags (Dict.get_default (lit "hashtags") (PList []) post);
  Some [ PInt (Z.of_nat i + 1);
         Dict.get_default (lit "caption") (PStr []) post;
         Dict.get_default (lit "caption_german") (PStr []) post;
         PStr tags;
         Dict.get_default (lit "image_url") (PStr []) post;
         Dict.get_default (lit "image_prompt") (PStr []) post ].

(** The loop of lines 144-152 over [enumerate(posts)], from index [i] on. *)
Fixpoint csv_rows (i : nat) (posts : list Dict.dict) : M (list (list pyval)) :=
  match posts with
  | [] => ret []
  | post :: rest =>
      match csv_row i post with
      | Some row => rows <- csv_rows (S i) rest ;; ret (row :: rows)
      | None => raise TypeError
      end
  end.

Definition read_clock : M pystr :=
  fun st => (Returned (now_isoformat ext (clock_reads st)), tick_clock st).

(** The text [csv.writer] writes for a cell, before any quoting: nothing
    for None, the string itself, [str()] of anything else. *)
Definition csv_cell_text (cell : pyval) : pystr :=
  match cell with
  | PNone => []
  | _ => py_str rt cell
  end.

(** [output.getvalue().encode()] returns. The text written is made of
    the texts of the cells and of ASCII commas, quotes and line ends, so
    UTF-8 encodes it exactly when it encodes every cell. *)
Definition csv_encodable (table : list (list pyval)) : bool :=
  forallb (forallb (fun cell => utf8_encodable (csv_cell_text cell))) table.

(** [export_posts], given [request.args.get('format')]. *)
Definition export_posts (arg_format : option pystr) : M response :=
  let format_type := default (lit "json") arg_format in
  st <- get_state ;;
  let posts := default [] (current_posts (sess st)) in
  match posts with
  | [] =>
      flash (lit "No posts to export. Please generate posts first.") (lit "error") ;;;
      ret (Redirect (lit "index"))
  | _ =>
      if pystr_eqb format_type (lit "csv") then
        rows <- csv_rows 0 posts ;;
        let table := map PStr csv_headers :: rows in
        if csv_encodable table then ret (SendCsv table (lit "social_media_posts.csv"))
        else raise UnicodeEncodeError
      else
        generated_at <- read_clock ;;
        let export_data :=
          [ (lit "menu_text", PStr (default [] (current_menu_text (sess st))));
            (lit "language", PStr (default (lit "english") (current_language (sess st))));
            (lit "generated_at", PStr generated_at);
            (lit "posts", PList (map PDict posts)) ] in
        ret (SendJson (PDict export_data) (lit "social_media_posts.json"))
  end.

End Handlers.

(** ** A concrete runtime and scripted services, for running the model *)

Module Sample.

Fixpoint digits_value (acc : Z) (s : pystr) : option Z :=
  match s with
  | [] => Some acc
  | c :: s' =>
      if (48 <=? c) && (c <=? 57) then digits_value (acc * 10 + Z.of_N (c - 48))%Z s'
      else None
  end.

(** [int(s)] on plain decimal numerals with an optional sign. *)
Definition parse_int (s : pystr) : option Z :=
  match py_strip s with
  | [] => None
  | 45 :: (_ :: _) as ds => Z.opp <$> digits_value 0 ds
  | 43 :: (_ :: _) as ds => digits_value 0 ds
  | 45 :: [] | 43 :: [] => None
  | ds => digits_value 0 ds
  end.

Definition ascii_runtime : runtime :=
  {| unicode_lower := fun s => s;
     repr_str := fun s => lit "'" ++ s ++ lit "'";
     int_of_str := parse_int |}.

(** Services that give the same completion to every call, an image URL
    numbered by the call, and identifiers numbered by the call. *)
Definition scripted (c : completion) : services :=
  {| chat_completion := fun _ _ => c;
     images_generate := fun n _ => ImageData (Some (lit "https://images.example/" ++ str_of_Z (Z.of_nat n)));
     uuid4 := fun n => lit "uuid-" ++ str_of_Z (Z.of_nat n);
     now_isoformat := fun _ => lit "2025-01-01T12:00:00" |}.

Definition empty_session : session :=
  {| current_posts := None; current_menu_text := None; current_language := None;
     uploaded_images := None; flashes := [] |}.

Definition initial : state :=
  {| sess := empty_session; completion_calls := 0; image_calls := 0; uuid_calls := 0;
     clock_reads := 0; saved_files := [] |}.

(** The completion [{"posts": [{"caption": caption, "hashtags": tags}]}]. *)
Definition one_post (caption : pystr) (tags : list pyval) : completion :=
  ContentText (Some (PDict [(lit "posts",
    PList [PDict [(lit "caption", PStr caption); (lit "hashtags", PList tags)]])])).

End Sample.

(** * The vocabulary of the properties *)

(** ** Posts made by the generator *)

(** [st'] is [st] after the generator made [k] posts: only the counters
    of the image service and of [uuid4] moved, the latter by [k]. *)
Definition made (k : nat) (st st' : state) : Prop :=
  sess st' = sess st
  /\ completion_calls st' = completion_calls st
  /\ uuid_calls st' = (uuid_calls st + k)%nat
  /\ clock_reads st' = clock_reads st
  /\ saved_files st' = saved_files st.

(** The three hashtags of a post made by the generator: those of the
    fallback post or the normalisation of some raw value. *)
Definition generated_tags (rt : runtime) (tags : list pystr) : Prop :=
  tags = [lit "BerlinEats"; lit "foodie"; lit "Mitte"]
  \/ exists raw, tags = normalize_hashtags rt raw.

(** A post made in state [st]. *)
Definition post_made (rt : runtime) (ext : services) (st : state) (post : Dict.dict) : Prop :=
  (exists tags, Dict.get (lit "hashtags") post = Some (PList (map PStr tags))
                /\ generated_tags rt tags)
  /\ Dict.get (lit "post_id") post = Some (PStr (uuid4 ext (uuid_calls st))).

(** The posts of a list were made one after the other from the [n]-th
    identifier on. *)
Definition posts_made (rt : runtime) (ext : services) (n : nat) (posts : list Dict.dict) : Prop :=
  forall i post, posts !! i = Some post ->
    (exists tags, Dict.get (lit "hashtags") post = Some (PList (map PStr tags))
                  /\ generated_tags rt tags)
    /\ Dict.get (lit "post_id") post = Some (PStr (uuid4 ext (n + i))).

Definition is_fallback (post : Dict.dict) : Prop :=
  Dict.get (lit "caption") post = Some (PStr fallback_caption)
  /\ Dict.get (lit "hashtags") post
     = Some (PList [PStr (lit "BerlinEats"); PStr (lit "foodie"); PStr (lit "Mitte")]).

(** The items the generator loops over, when the completion gives any:
    the content has to parse as an object whose "posts" entry is absent
    or iterable. *)
Definition response_items (c : completion) : option (list pyval) :=
  match c with
  | ContentText (Some (PDict d)) => py_iter (Dict.get_default (lit "posts") (PList []) d)
  | _ => None
  end.

Definition hashtags_of (post : Dict.dict) : list pyval :=
  match Dict.get (lit "hashtags") post with
  | Some (PList tags) => tags
  | _ => []
  end.

(** A hashtag of the post is one of the locality tags, letter case apart. *)
Definition has_locality_tag (rt : runtime) (post : Dict.dict) : bool :=
  existsb (fun tag => match tag with
                      | PStr s => str_in (py_lower rt s) berlin_tags
                      | _ => false
                      end) (hashtags_of post).

(** A normalized hashtag: not empty, no white space at either end, no
    leading hash sign. *)
Definition normalized_tag (tag : pystr) : Prop :=
  tag <> []
  /\ (forall c, head tag = Some c -> is_space c = false /\ c <> 35)
  /\ (forall c, last tag = Some c -> is_space c = false).

(** A hashtag that is not empty, does not begin with a hash sign and
    does not end with white space. *)
Definition trimmed_tag (tag : pystr) : Prop :=
  tag <> []
  /\ (forall c, head tag = Some c -> c <> 35)
  /\ (forall c, last tag = Some c -> is_space c = false).

Definition trimmed_tagb (tag : pystr) : bool :=
  negb (pystr_eqb tag [])
  && match head tag with Some c => negb (c =? 35) | None => true end
  && match last tag with Some c => negb (is_space c) | None => true end.

Section Outcomes.

Context (rt : runtime) (ext : services).

(** What one run of the generator does, by the completion it gets. *)
Definition generator_run (menu_text : pystr) (num_posts : Z) (language : pystr)
    (ab_test_mode : bool) (st : state) (run : outcome (list Dict.dict) * state) : Prop :=
  let needed := actual_posts_needed num_posts ab_test_mode in
  match response_items (chat_completion ext (completion_calls st)
                          (build_prompt menu_text num_posts language ab_test_mode)) with
  | Some items =>
      exists cleaned fallbacks st1 st',
        clean_posts rt ext language items [] (tick_completion st) = (Returned cleaned, st1)
        /\ run = (Returned (slice_to needed (cleaned ++ fallbacks)), st')
        /\ length fallbacks = Z.to_nat (needed - Z.of_nat (length cleaned))
        /\ Forall is_fallback fallbacks
        /\ posts_made rt ext (uuid_calls st) (cleaned ++ fallbacks)
        /\ made (length (cleaned ++ fallbacks)) (tick_completion st) st'
  | None => exists e, run = (Raised e, tick_completion st)
  end.

(** The generator turns what its body raises into a [ValueError]. *)
Definition value_error_run (st : state) (run : outcome (list Dict.dict) * state) : Prop :=
  exists msg, run = (Raised (ValueError msg), tick_completion st).

(** The flash message of the two [except] clauses of [generate_posts]. *)
Definition failure_message (e : exn) : pystr :=
  match e with
  | ValueError _ | JSONDecodeError | UnicodeEncodeError =>
      lit "Invalid number of posts. Please enter a valid number."
  | _ => lit "Sorry, we encountered an issue generating your posts. Please try again."
  end.

End Outcomes.

(** What the generator answers to a request for [num_posts] posts: a
    [ValueError] when the completion gives no items to loop over, and
    otherwise the posts built from the items, followed by as many
    fallback posts as are missing, cut to the number needed. *)
Definition count_outcome (rt : runtime) (ext : services) (menu_text : pystr) (num_posts : Z)
    (language : pystr) (ab_test_mode : bool) (st : state) : Prop :=
  let needed := Z.to_nat (if ab_test_mode then 2 * num_posts else num_posts) in
  let run := generate_multiple_social_media_posts rt ext menu_text num_posts language
               ab_test_mode st in
  match response_items (chat_completion ext (completion_calls st)
                          (build_prompt menu_text num_posts language ab_test_mode)) with
  | Some items =>
      exists cleaned fallbacks st1 posts st',
        clean_posts rt ext language items [] (tick_completion st) = (Returned cleaned, st1)
        /\ Forall is_fallback fallbacks
        /\ length fallbacks = (needed - length cleaned)%nat
        /\ posts = take needed (cleaned ++ fallbacks)
        /\ run = (Returned posts, st')
        /\ length posts = needed
  | None => exists msg st', run = (Raised (ValueError msg), st')
  end.

(** ** Answers of the handlers *)

(** The handler answered with a flash message followed by a redirect. *)
Definition flash_and_redirect (st : state) (run : outcome response * state) : Prop :=
  exists endpoint category message,
    fst run = Returned (Redirect endpoint)
    /\ flashes (sess (snd run)) = flashes (sess st) ++ [(category, message)].

(** The state after [flash(message, 'error')] and nothing else. *)
Definition flashed (message : pystr) (st : state) : state :=
  set_sess (add_flash (lit "error") message (sess st)) st.

(** [int(request.form.get('num_posts', 3))], when it does not raise. *)
Definition requested_num_posts (rt : runtime) (form : generate_form) : option Z :=
  match form_num_posts form with
  | None => Some 3%Z
  | Some s => int_of_str rt s
  end.

Definition stripped_menu_text (form : generate_form) : pystr :=
  py_strip (default [] (form_menu_text form)).

(** The request carries a file with a non-empty name whose extension,
    the part after the last dot in lower case, is an allowed one. *)
Definition upload_accepts (rt : runtime) (req : upload_request) : bool :=
  match files_image req with
  | Some file =>
      negb (pystr_eqb (filename file) [])
      && match extension (filename file) with
         | Some ext_part => str_in (py_lower rt ext_part) ALLOWED_EXTENSIONS
         | None => false
         end
  | None => false
  end.

(** A post as the generator stores it: its hashtags are a list of strings. *)
Definition stored_post (post : Dict.dict) : Prop :=
  exists tags, Dict.get (lit "hashtags") post = Some (PList (map PStr tags)).


Definition form_language_or_default (form : generate_form) : pystr :=
  default (lit "english") (form_language form).

Definition form_ab_test (form : generate_form) : bool :=
  bool_decide (form_ab_test_mode form = Some (lit "on")).

(** The request to /generate fails: the number of posts is not a
    number, the menu text is blank, the number is out of range, or the
    completion gives the generator nothing to loop over. *)
Definition generation_fails (rt : runtime) (ext : services) (form : generate_form)
    (st : state) : bool :=
  match requested_num_posts rt form with
  | None => true
  | Some n =>
      pystr_eqb (stripped_menu_text form) []
      || ((n <? 1)%Z || (10 <? n)%Z)
      || match response_items
                 (chat_completion ext (completion_calls st)
                    (build_prompt (stripped_menu_text form) n (form_language_or_default form)
                       (form_ab_test form))) with
         | Some _ => false
         | None => true
         end
  end.

(** The request to /generate went through: the posts of the generator,
    with the uploaded images merged in, are stored in the session and
    rendered. *)
Definition generation_renders (rt : runtime) (ext : services) (form : generate_form)
    (st : state) (run : outcome response * state) : Prop :=
  exists n posts st1,
    requested_num_posts rt form = Some n
    /\ generate_multiple_social_media_posts rt ext (stripped_menu_text form) n
         (form_language_or_default form) (form_ab_test form) st = (Returned posts, st1)
    /\ posts <> []
    /\ let merged := merge_uploaded (default ∅ (uploaded_images (sess st))) posts in
       run = (Returned (RenderTemplate (lit "results.html")
                          [ (lit "posts", PList (map PDict merged));
                            (lit "menu_text", PStr (stripped_menu_text form));
                            (lit "language", PStr (form_language_or_default form));
                            (lit "ab_test_mode", PBool (form_ab_test form)) ]),
              set_sess (set_current merged (stripped_menu_text form)
                          (form_language_or_default form) (sess st1)) st1)
       /\ sess st1 = sess st.

(** Every list of posts in the session holds stored posts only. *)
Definition session_posts_stored (s : session) : Prop :=
  forall posts, current_posts s = Some posts -> Forall stored_post posts.



(** ** Concrete completions, forms and sessions *)

Module Runs.
Import Sample.

Definition generate (c : completion) (num_posts : Z) (ab_test_mode : bool)
  : outcome (list Dict.dict) * state :=
  generate_multiple_social_media_posts ascii_runtime (scripted c) (lit "Currywurst 4.50")
    num_posts (lit "english") ab_test_mode initial.

Definition posts_of (run : outcome (list Dict.dict) * state) : list Dict.dict :=
  match fst run with
  | Returned posts => posts
  | Raised _ => []
  end.

(** One post with the hashtags ["Currywurst", "#streetfood"]. *)
Definition two_tags : completion :=
  one_post (lit "Best Currywurst in town") [PStr (lit "Currywurst"); PStr (lit "#streetfood")].

(** One post with four hashtags, none of them a locality tag. *)
Definition four_tags : completion :=
  one_post (lit "Best Currywurst in town")
    [PStr (lit "currywurst"); PStr (lit "streetfood"); PStr (lit "lunch"); PStr (lit "yum")].

(** One post whose hashtag has a blank after its hash sign. *)
Definition spaced_tag : completion :=
  one_post (lit "Best Currywurst in town") [PStr (lit "# currywurst")].

(** The object [{"posts": null}]. *)
Definition null_posts : completion := ContentText (Some (PDict [(lit "posts", PNone)])).

End Runs.

Module Forms.

(** A form with a blank menu text and three posts asked. *)
Definition blank_menu : generate_form :=
  {| form_menu_text := Some (lit "   "); form_num_posts := Some (lit "3");
     form_language := None; form_ab_test_mode := None |}.

(** A form that asks for eleven posts. *)
Definition eleven_posts : generate_form :=
  {| form_menu_text := Some (lit "Currywurst 4.50"); form_num_posts := Some (lit "11");
     form_language := None; form_ab_test_mode := None |}.

(** A form that asks for two posts in English and German. *)
Definition two_posts : generate_form :=
  {| form_menu_text := Some (lit " Currywurst 4.50 "); form_num_posts := Some (lit "2");
     form_language := Some (lit "both"); form_ab_test_mode := None |}.

Definition png_upload : upload_request :=
  {| post_index := 1; files_image := Some {| filename := lit "Wurst.final.PNG" |} |}.

Definition exe_upload : upload_request :=
  {| post_index := 0; files_image := Some {| filename := lit "wurst.exe" |} |}.

Definition no_upload : upload_request := {| post_index := 0; files_image := None |}.

End Forms.

Module Served.
Import Sample.

(** The state after the form [Forms.two_posts] was served with the
    completion [Runs.two_tags]. *)
Definition served : state :=
  snd (generate_posts ascii_runtime (scripted Runs.two_tags) Forms.two_posts initial).

Definition served_posts : list Dict.dict := default [] (current_posts (sess served)).

End Served.

Module Surrogate.
Import Sample.

(** One post whose caption ends in the lone surrogate U+D83D, as
    [json.loads] reads it from the escape \ud83d with no second half. *)
Definition lone_caption : completion :=
  one_post (lit "Lunch " ++ [55357]) [PStr (lit "lunch")].

(** The state after the form [Forms.two_posts] was served with it. *)
Definition served : state :=
  snd (generate_posts ascii_runtime (scripted lone_caption) Forms.two_posts initial).

Definition served_posts : list Dict.dict := default [] (current_posts (sess served)).

End Surrogate.

(** * More of the program, and the vocabulary of its further properties *)

(** ** The two handlers without a form *)

(** [index]: the page with the menu form. *)
Definition index : M response := ret (RenderTemplate (lit "index.html") []).

(** [os.path.join(a, b)] on a POSIX system. *)
Definition path_join (a b : pystr) : pystr :=
  match b with
  | 47 :: _ => b
  | _ =>
      match last a with
      | None => b
      | Some 47 => a ++ b
      | Some _ => a ++ lit "/" ++ b
      end
  end.

(** The file last saved under [path], by the name it was uploaded with. *)
Fixpoint saved_at (path : pystr) (files : list (pystr * pystr)) : option pystr :=
  match files with
  | [] => None
  | (p, content) :: rest =>
      match saved_at path rest with
      | Some later => Some later
      | None => if pystr_eqb p path then Some content else None
      end
  end.

(** What [send_file] gives for a path: the path and the file found there. *)
Inductive file_answer := SendFile (path : pystr) (content : pystr).

(** [uploaded_image], for a [filename] taken from the URL: the file
    saved under that name in the upload folder, or [None] when there is
    none and [send_file] raises. *)
Definition uploaded_image (name : pystr) (st : state) : option file_answer :=
  let path := path_join UPLOAD_FOLDER name in
  SendFile path <$> saved_at path (saved_files st).

(** ** Items of a completion and the posts built from them *)

(** The item is a dict with a caption: the generator builds a post from it. *)
Definition usable_item (item : pyval) : option Dict.dict :=
  match item with
  | PDict d => if Dict.has_key (lit "caption") d then Some d else None
  | _ => None
  end.

Definition usable_items (items : list pyval) : list Dict.dict := omap usable_item items.

(** The keys of every post record, in order. *)
Definition post_keys : list pystr :=
  [lit "caption"; lit "hashtags"; lit "image_url"; lit "image_prompt"; lit "variant";
   lit "post_id"].

(** What the image service gives for the prompt of an item, read as the
    generator reads it: a URL, or None when there is no prompt to send or
    the generation fails. *)
Definition image_for (ext : services) (calls : nat) (image_prompt : pyval) : pyval :=
  if py_bool image_prompt then
    match images_generate ext calls image_prompt with
    | ImageData (Some url) => PStr url
    | _ => PNone
    end
  else PNone.

(** The post is one that [build_post] returns for the item, in some state. *)
Definition built_from (rt : runtime) (ext : services) (language : pystr) (d : Dict.dict)
    (post : Dict.dict) : Prop :=
  exists st0 st1, build_post rt ext language d st0 = (Returned post, st1).

(** The fields a post takes over from its item. *)
Definition copies_item (rt : runtime) (d : Dict.dict) (post : Dict.dict) : Prop :=
  Dict.get (lit "caption") post
  = Some (PStr (py_str rt (Dict.get_default (lit "caption") (PStr []) d)))
  /\ Dict.get (lit "image_prompt") post
     = Some (Dict.get_default (lit "image_prompt") (PStr []) d)
  /\ Dict.get (lit "variant") post = Some (Dict.get_default (lit "variant") (PStr []) d)
  /\ Dict.get (lit "hashtags") post
     = Some (PList (map PStr (normalize_hashtags rt
                                (Dict.get_default (lit "hashtags") (PList []) d)))).

(** A post record has the six keys, and "caption_german" after them or not. *)
Definition post_shape (post : Dict.dict) : Prop :=
  Dict.keys post = post_keys \/ Dict.keys post = post_keys ++ [lit "caption_german"].

(** Exactly three hashtag strings. *)
Definition three_tags (post : Dict.dict) : Prop :=
  exists a b c, Dict.get (lit "hashtags") post = Some (PList [PStr a; PStr b; PStr c]).

Definition session_three_tags (s : session) : Prop :=
  forall posts, current_posts s = Some posts -> Forall three_tags posts.

(** The number of posts the handler asks the generator for. *)
Definition posts_asked (n : Z) (form : generate_form) : nat :=
  Z.to_nat (if form_ab_test form then 2 * n else n).

(** The post is one that [fallback_post] returns, in some state. *)
Definition fallback_made (ext : services) (language : pystr) (post : Dict.dict) : Prop :=
  exists st0 st1, fallback_post ext language st0 = (Returned post, st1).

(** [st'] is [st] after [k] posts were made: as [made], and the image
    service was called at most once per post. *)
Definition spent (k : nat) (st st' : state) : Prop :=
  made k st st'
  /\ (image_calls st <= image_calls st' <= image_calls st + k)%nat.

(** One run of the generator that returns, taken apart: the items of the
    completion, the posts built from the usable ones, the fallback posts
    that pad them, and the list cut to the number needed. *)
Definition generator_parts (rt : runtime) (ext : services) (menu_text : pystr) (num_posts : Z)
    (language : pystr) (ab_test_mode : bool) (st st' : state) (posts : list Dict.dict)
    (items : list pyval) (cleaned fallbacks : list Dict.dict) : Prop :=
  let needed := actual_posts_needed num_posts ab_test_mode in
  response_items (chat_completion ext (completion_calls st)
                    (build_prompt menu_text num_posts language ab_test_mode)) = Some items
  /\ Forall2 (built_from rt ext language) (usable_items items) cleaned
  /\ Forall (fallback_made ext language) fallbacks
  /\ length fallbacks = Z.to_nat (needed - Z.of_nat (length cleaned))
  /\ posts = slice_to needed (cleaned ++ fallbacks)
  /\ spent (length (cleaned ++ fallbacks)) (tick_completion st) st'.

(** A raw hashtag the first loop drops: falsy, or nothing left of it
    after [strip()] and [lstrip('#')]. *)
Definition dropped_tag (rt : runtime) (tag : pyval) : Prop :=
  py_bool tag = false \/ py_lstrip_hash (py_strip (py_str rt tag)) = [].

(** The "hashtags" entry of the item gives the generator no tag to keep:
    it is missing, is not a list, or is a list of dropped tags. *)
Definition no_tag_kept (rt : runtime) (d : Dict.dict) : Prop :=
  match Dict.get (lit "hashtags") d with
  | None => True
  | Some (PList l) => Forall (dropped_tag rt) l
  | Some _ => True
  end.

(** * Properties *)

(** ** Strings *)

Lemma pystr_eqb_eq (a b : pystr) : pystr_eqb a b = true <-> a = b.
Proof.
  revert b; induction a as [|x a IH]; intros [|y b]; simpl; try easy.
  rewrite andb_true_iff, N.eqb_eq, IH. split.
  - intros [-> ->]; reflexivity.
  - intros [= -> ->]; split; reflexivity.
Qed.

Lemma pystr_eqb_refl (a : pystr) : pystr_eqb a a = true.
Proof. apply pystr_eqb_eq; reflexivity. Qed.

Lemma pystr_eqb_neq (a b : pystr) : pystr_eqb a b = false <-> a <> b.
Proof.
  rewrite <- pystr_eqb_eq. destruct (pystr_eqb a b); split; congruence.
Qed.

Lemma str_in_elem (s : pystr) (xs : list pystr) : str_in s xs = true <-> s ∈ xs.
Proof.
  unfold str_in. rewrite existsb_exists. setoid_rewrite pystr_eqb_eq.
  rewrite list_elem_of_In. split.
  - intros (x & Hx & ->); exact Hx.
  - intros H; exists s; split; [exact H | reflexivity].
Qed.

(** What is left by [lstrip] does not start with a stripped code point. *)
Lemma lstrip_by_head (p : N -> bool) (s : pystr) (c : N) (r : pystr) :
  lstrip_by p s = c :: r -> p c = false.
Proof.
  induction s as [|x s IH]; simpl; [discriminate|].
  destruct (p x) eqn:Hx; [exact IH|].
  intros [= <- <-]; exact Hx.
Qed.

(** [lstrip] leaves a suffix of the string. *)
Lemma lstrip_by_suffix (p : N -> bool) (s : pystr) :
  exists pre, s = pre ++ lstrip_by p s /\ forallb p pre = true.
Proof.
  induction s as [|x s (pre & IH & Hpre)]; simpl.
  - exists []; split; reflexivity.
  - destruct (p x) eqn:Hx.
    + exists (x :: pre); simpl; rewrite Hx, Hpre; split; [congruence | reflexivity].
    + exists []; split; reflexivity.
Qed.

(** What is left by [rstrip] does not end with a stripped code point. *)
Lemma rstrip_by_last (p : N -> bool) (s : pystr) (c : N) :
  last (rstrip_by p s) = Some c -> p c = false.
Proof.
  induction s as [|x s IH]; simpl; [discriminate|].
  destruct (rstrip_by p s) as [|y r] eqn:Hr.
  - destruct (p x) eqn:Hx; simpl; [discriminate|]. intros [= <-]; exact Hx.
  - intros H; apply IH. exact H.
Qed.

Lemma rsplit1_none (sep : N) (s : pystr) :
  rsplit1 sep s = None <-> existsb (N.eqb sep) s = false.
Proof.
  induction s as [|x s IH]; simpl; [easy|].
  destruct (rsplit1 sep s) as [[a b]|].
  - split; [discriminate|]. intros H. apply orb_false_iff in H as [_ H].
    apply IH in H; discriminate.
  - rewrite (N.eqb_sym sep x). destruct (x =? sep); simpl; [easy|].
    split; intros _; [apply IH|]; reflexivity.
Qed.

(** ** Hashtags *)

Section HashtagFacts.

Context (rt : runtime).

Lemma fill_hashtags_length (k : nat) (tags : list pystr) :
  length (fill_hashtags rt k tags) = (length tags + k)%nat.
Proof.
  revert tags; induction k as [|k IH]; intros tags; simpl; [lia|].
  repeat case_match; rewrite IH, length_app; simpl; lia.
Qed.

(** The loop only appends. *)
Lemma fill_hashtags_prefix (k : nat) (tags : list pystr) :
  exists added, fill_hashtags rt k tags = tags ++ added
    /\ Forall (fun t => t ∈ [lit "foodie"; lit "delicious"; lit "restaurant"]) added.
Proof.
  revert tags; induction k as [|k IH]; intros tags; simpl.
  - exists []; split; [symmetry; apply app_nil_r | constructor].
  - repeat case_match;
      match goal with
      | |- context [fill_hashtags rt k (tags ++ [?t])] =>
          destruct (IH (tags ++ [t])) as (added & -> & Hadded);
          exists (t :: added); split;
          [ rewrite <- app_assoc; reflexivity
          | constructor; [set_solver | exact Hadded] ]
      end.
Qed.

Lemma normalize_hashtags_length (raw : pyval) :
  length (normalize_hashtags rt raw) = 3%nat.
Proof.
  destruct raw; try reflexivity.
  unfold normalize_hashtags. rewrite fill_hashtags_length, length_take. lia.
Qed.

(** Every tag kept by the first loop is a non-empty string cut by
    [strip] and then [lstrip('#')]. *)
Lemma clean_tags_shape (raw : list pyval) :
  Forall (fun t => t <> [] /\ exists s, t = py_lstrip_hash (py_strip s)) (clean_tags rt raw).
Proof.
  induction raw as [|tag raw IH]; simpl; [constructor|].
  destruct (py_bool tag); [|exact IH].
  destruct (pystr_eqb _ []) eqn:He; simpl; [exact IH|].
  constructor; [|exact IH].
  split; [apply pystr_eqb_neq; exact He | eexists; reflexivity].
Qed.

End HashtagFacts.

(** ** The monad *)

Lemma bind_returned {A B} (m : M A) (k : A -> M B) (st st' : state) (a : A) :
  m st = (Returned a, st') -> bind m k st = k a st'.
Proof. unfold bind; intros ->; reflexivity. Qed.

Lemma bind_raised {A B} (m : M A) (k : A -> M B) (st st' : state) (e : exn) :
  m st = (Raised e, st') -> bind m k st = (Raised e, st').
Proof. unfold bind; intros ->; reflexivity. Qed.

Lemma try_returned {A} (m : M A) (h : exn -> M A) (st st' : state) (a : A) :
  m st = (Returned a, st') -> try_except m h st = (Returned a, st').
Proof. unfold try_except; intros ->; reflexivity. Qed.

Lemma try_raised {A} (m : M A) (h : exn -> M A) (st st' : state) (e : exn) :
  m st = (Raised e, st') -> try_except m h st = h e st'.
Proof. unfold try_except; intros ->; reflexivity. Qed.

(** ** The generator *)

Lemma made_zero (st : state) : made 0 st st.
Proof. unfold made; repeat split; lia. Qed.

Lemma made_trans (j k : nat) (st1 st2 st3 : state) :
  made j st1 st2 -> made k st2 st3 -> made (j + k) st1 st3.
Proof. unfold made; intros (?&?&?&?&?) (?&?&?&?&?); repeat split; try congruence; lia. Qed.

Section GeneratorFacts.

Context (rt : runtime) (ext : services).

Lemma image_or_none (p : pyval) (st : state) :
  exists v, try_except (generate_food_image ext p) (fun _ => ret PNone) st
            = (Returned v, tick_image st).
Proof.
  cbv beta iota delta [try_except generate_food_image bind call_images raise ret].
  destruct (images_generate ext (image_calls st) p) as [| |[url|]];
    eexists; reflexivity.
Qed.

Lemma made_tick_image_uuid (st : state) : made 1 st (tick_uuid (tick_image st)).
Proof. unfold made; simpl; repeat split; lia. Qed.

Lemma made_tick_uuid (st : state) : made 1 st (tick_uuid st).
Proof. unfold made; simpl; repeat split; lia. Qed.

(** [build_post] always returns, with a post made in the state it started from. *)
Lemma build_post_returns (language : pystr) (d : Dict.dict) (st : state) :
  exists post st', build_post rt ext language d st = (Returned post, st')
    /\ made 1 st st' /\ post_made rt ext st post.
Proof.
  unfold build_post.
  set (tags := normalize_hashtags rt _).
  assert (Htags : generated_tags rt tags) by (right; eexists; reflexivity).
  clearbody tags.
  destruct (py_bool (Dict.get_default (lit "image_prompt") (PStr []) d)).
  - destruct (image_or_none (Dict.get_default (lit "image_prompt") (PStr []) d) st)
      as [v Hv].
    rewrite (bind_returned _ _ _ _ _ Hv). unfold bind, new_uuid, ret.
    destruct (_ && _); (do 2 eexists; split; [reflexivity|]);
      (split; [apply made_tick_image_uuid|]);
      (split; [exists tags; split; [reflexivity | exact Htags] | reflexivity]).
  - unfold bind, new_uuid, ret.
    destruct (_ && _); (do 2 eexists; split; [reflexivity|]);
      (split; [apply made_tick_uuid|]);
      (split; [exists tags; split; [reflexivity | exact Htags] | reflexivity]).
Qed.

Lemma fallback_post_returns (language : pystr) (st : state) :
  exists post st', fallback_post ext language st = (Returned post, st')
    /\ made 1 st st' /\ post_made rt ext st post /\ is_fallback post.
Proof.
  unfold fallback_post.
  destruct (image_or_none (PStr default_prompt) st) as [v Hv].
  rewrite (bind_returned _ _ _ _ _ Hv). unfold bind, new_uuid, ret.
  destruct (pystr_eqb language (lit "both"));
    (do 2 eexists; split; [reflexivity|]);
    (split; [apply made_tick_image_uuid|]);
    (split; [split; [exists [lit "BerlinEats"; lit "foodie"; lit "Mitte"]; split;
                     [reflexivity | left; reflexivity] | reflexivity]
            | split; reflexivity]).
Qed.

End GeneratorFacts.

Lemma slice_to_take {A} (k : Z) (l : list A) : exists m, slice_to k l = take m l.
Proof. unfold slice_to; destruct (0 <=? k)%Z; eexists; reflexivity. Qed.

Lemma slice_to_length {A} (k : Z) (l : list A) :
  (0 <= k <= Z.of_nat (length l))%Z -> Z.of_nat (length (slice_to k l)) = k.
Proof.
  intros H. unfold slice_to.
  destruct (Z.leb_spec 0 k); [|lia]. rewrite length_take. lia.
Qed.

Section GeneratorRuns.

Context (rt : runtime) (ext : services).

Lemma posts_made_nil (n : nat) : posts_made rt ext n [].
Proof. intros i post H; discriminate. Qed.

Lemma posts_made_snoc (n : nat) (posts : list Dict.dict) (post : Dict.dict) (st : state) :
  posts_made rt ext n posts -> uuid_calls st = (n + length posts)%nat ->
  post_made rt ext st post -> posts_made rt ext n (posts ++ [post]).
Proof.
  intros Hposts Hn [Htags Hid] i p Hi.
  apply lookup_snoc_Some in Hi as [[_ Hi] | [-> <-]]; [exact (Hposts i p Hi)|].
  split; [exact Htags | rewrite Hid, Hn; reflexivity].
Qed.

Lemma posts_made_take (n m : nat) (posts : list Dict.dict) :
  posts_made rt ext n posts -> posts_made rt ext n (take m posts).
Proof. intros H i p Hi. apply lookup_take_Some in Hi as [Hi _]. exact (H i p Hi). Qed.

(** The loop over the items always returns; it appends one post per
    item that is a dict with a caption. *)
Lemma clean_posts_returns (language : pystr) (items : list pyval) :
  forall (posts : list Dict.dict) (st : state) (n : nat),
    posts_made rt ext n posts -> uuid_calls st = (n + length posts)%nat ->
    exists new st',
      clean_posts rt ext language items posts st = (Returned (posts ++ new), st')
      /\ made (length new) st st' /\ posts_made rt ext n (posts ++ new)
      /\ (length new <= length items)%nat.
Proof.
  induction items as [|item items IH]; intros posts st n Hposts Hn; simpl.
  - exists [], st. rewrite app_nil_r.
    split; [reflexivity | split; [apply made_zero | split; [exact Hposts | simpl; lia]]].
  - assert (Hskip : exists new st',
               clean_posts rt ext language items posts st = (Returned (posts ++ new), st')
               /\ made (length new) st st' /\ posts_made rt ext n (posts ++ new)
               /\ (length new <= S (length items))%nat).
    { destruct (IH posts st n Hposts Hn) as (new & st' & ? & ? & ? & ?).
      exists new, st'. split; [assumption | split; [assumption | split; [assumption | lia]]]. }
    destruct item as [| | | | |l|d]; try exact Hskip.
    destruct (Dict.has_key (lit "caption") d); [|exact Hskip].
    destruct (build_post_returns rt ext language d st) as (post & st1 & Hrun & Hmade & Hpost).
    rewrite (bind_returned _ _ _ _ _ Hrun).
    destruct (IH (posts ++ [post]) st1 n) as (new & st' & Hrest & Hmade' & Hall & Hlen).
    + exact (posts_made_snoc n posts post st Hposts Hn Hpost).
    + destruct Hmade as (_ & _ & -> & _). rewrite Hn, length_app; simpl; lia.
    + exists (post :: new), st'. rewrite <- app_assoc in Hrest, Hall.
      split; [exact Hrest | split; [exact (made_trans 1 _ _ _ _ Hmade Hmade') |]].
      split; [exact Hall | simpl; lia].
Qed.

(** The padding loop always returns; it appends [missing] fallback posts. *)
Lemma pad_posts_returns (language : pystr) (missing : nat) :
  forall (posts : list Dict.dict) (st : state) (n : nat),
    posts_made rt ext n posts -> uuid_calls st = (n + length posts)%nat ->
    exists fallbacks st',
      pad_posts ext language missing posts st = (Returned (posts ++ fallbacks), st')
      /\ made missing st st' /\ posts_made rt ext n (posts ++ fallbacks)
      /\ length fallbacks = missing /\ Forall is_fallback fallbacks.
Proof.
  induction missing as [|k IH]; intros posts st n Hposts Hn; simpl.
  - exists [], st. rewrite app_nil_r.
    split; [reflexivity | split; [apply made_zero | split; [exact Hposts |]]].
    split; [reflexivity | constructor].
  - destruct (fallback_post_returns rt ext language st)
      as (post & st1 & Hrun & Hmade & Hpost & Hfb).
    rewrite (bind_returned _ _ _ _ _ Hrun).
    destruct (IH (posts ++ [post]) st1 n) as (new & st' & Hrest & Hmade' & Hall & Hlen & Hfbs).
    + exact (posts_made_snoc n posts post st Hposts Hn Hpost).
    + destruct Hmade as (_ & _ & -> & _). rewrite Hn, length_app; simpl; lia.
    + exists (post :: new), st'. rewrite <- app_assoc in Hrest, Hall.
      split; [exact Hrest | split; [exact (made_trans 1 _ _ _ _ Hmade Hmade') |]].
      split; [exact Hall | split; [simpl; lia | constructor; assumption]].
Qed.

End GeneratorRuns.

Section GeneratorSpec.

Context (rt : runtime) (ext : services).

Lemma generate_body_runs (menu_text : pystr) (num_posts : Z) (language : pystr)
    (ab_test_mode : bool) (st : state) :
  generator_run rt ext menu_text num_posts language ab_test_mode st
    (generate_body rt ext menu_text num_posts language ab_test_mode st).
Proof.
  unfold generator_run, generate_body.
  set (p := build_prompt _ _ _ _).
  set (needed := actual_posts_needed _ _).
  assert (Hcall : call_completion ext p st
                  = (Returned (chat_completion ext (completion_calls st) p),
                     tick_completion st)) by reflexivity.
  rewrite (bind_returned _ _ _ _ _ Hcall).
  destruct (chat_completion ext (completion_calls st) p) as [| |[v|]];
    try (eexists; reflexivity).
  destruct v as [| | | | | |d]; try (eexists; reflexivity).
  simpl response_items.
  destruct (py_iter (Dict.get_default (lit "posts") (PList []) d)) as [items|] eqn:Hit;
    [|eexists; unfold bind, ret, raise; rewrite Hit; reflexivity].
  destruct (clean_posts_returns rt ext language items [] (tick_completion st)
              (uuid_calls st) (posts_made_nil rt ext _))
    as (cleaned & st1 & Hclean & Hmade1 & Hall1 & _); [simpl; lia|].
  simpl in Hclean, Hall1.
  destruct (pad_posts_returns rt ext language
              (Z.to_nat (needed - Z.of_nat (length cleaned))) cleaned st1 (uuid_calls st) Hall1)
    as (fallbacks & st' & Hpad & Hmade2 & Hall2 & Hlen & Hfb).
  { destruct Hmade1 as (_ & _ & -> & _). simpl; lia. }
  exists cleaned, fallbacks, st1, st'.
  split; [exact Hclean|]. split.
  - unfold bind at 1. unfold ret at 1. unfold bind at 1. unfold ret at 1.
    unfold bind at 1. rewrite Hit. unfold ret at 1.
    rewrite (bind_returned _ _ _ _ _ Hclean), (bind_returned _ _ _ _ _ Hpad).
    reflexivity.
  - split; [exact Hlen | split; [exact Hfb | split; [exact Hall2|]]].
    rewrite length_app, Hlen. exact (made_trans _ _ _ _ _ Hmade1 Hmade2).
Qed.

Lemma generate_multiple_runs (menu_text : pystr) (num_posts : Z) (language : pystr)
    (ab_test_mode : bool) (st : state) :
  let run := generate_multiple_social_media_posts rt ext menu_text num_posts language
               ab_test_mode st in
  generator_run rt ext menu_text num_posts language ab_test_mode st run
  /\ (response_items (chat_completion ext (completion_calls st)
                        (build_prompt menu_text num_posts language ab_test_mode)) = None ->
      value_error_run st run).
Proof.
  intros run. subst run.
  pose proof (generate_body_runs menu_text num_posts language ab_test_mode st) as Hbody.
  unfold generator_run in *. unfold generate_multiple_social_media_posts.
  destruct (response_items _) as [items|].
  - destruct Hbody as (cleaned & fallbacks & st1 & st' & Hc & Hrun & Hrest).
    split; [|discriminate].
    exists cleaned, fallbacks, st1, st'. split; [exact Hc|].
    split; [|exact Hrest]. exact (try_returned _ _ _ _ _ Hrun).
  - destruct Hbody as [e Hrun]. rewrite (try_raised _ _ _ _ _ Hrun).
    split; [|intros _]; destruct e; eexists; reflexivity.
Qed.

(** Every post the generator returns was made by it, the [i]-th with
    the [i]-th identifier drawn during the run. *)
Lemma generate_multiple_posts_made (menu_text : pystr) (num_posts : Z) (language : pystr)
    (ab_test_mode : bool) (st st' : state) (posts : list Dict.dict) :
  generate_multiple_social_media_posts rt ext menu_text num_posts language ab_test_mode st
  = (Returned posts, st') ->
  posts_made rt ext (uuid_calls st) posts
  /\ sess st' = sess st
  /\ (uuid_calls st + length posts <= uuid_calls st')%nat.
Proof.
  intros Hrun.
  destruct (generate_multiple_runs menu_text num_posts language ab_test_mode st) as [H _].
  unfold generator_run in H. rewrite Hrun in H.
  destruct (response_items _); [|destruct H as [e H]; discriminate].
  destruct H as (cleaned & fallbacks & st1 & st2 & _ & [= -> ->] & _ & _ & Hall & Hmade).
  destruct (slice_to_take (actual_posts_needed num_posts ab_test_mode) (cleaned ++ fallbacks))
    as [m ->].
  split; [apply posts_made_take; exact Hall|].
  destruct Hmade as (Hs & _ & Hu & _). split; [exact Hs|].
  rewrite Hu, length_take. simpl. lia.
Qed.

End GeneratorSpec.

(** ** Runs of the model on concrete completions *)

(** ** The post records *)

Lemma generated_tags_three (rt : runtime) (tags : list pystr) :
  generated_tags rt tags -> exists a b c, tags = [a; b; c].
Proof.
  intros H.
  assert (Hlen : length tags = 3%nat).
  { destruct H as [-> | [raw ->]]; [reflexivity | apply normalize_hashtags_length]. }
  destruct tags as [|a [|b [|c [|]]]]; try discriminate. eauto.
Qed.

(** C1: every post record in the list returned by
    [generate_multiple_social_media_posts] holds exactly three hashtag
    strings in its "hashtags" field, whatever the completion and the
    input. *)
Theorem three_hashtags_per_post (rt : runtime) (ext : services) (menu_text : pystr)
    (num_posts : Z) (language : pystr) (ab_test_mode : bool) (st st' : state)
    (posts : list Dict.dict) :
  generate_multiple_social_media_posts rt ext menu_text num_posts language ab_test_mode st
  = (Returned posts, st') ->
  Forall (fun post => exists a b c,
            Dict.get (lit "hashtags") post = Some (PList [PStr a; PStr b; PStr c])) posts.
Proof.
  intros Hrun.
  destruct (generate_multiple_posts_made rt ext _ _ _ _ _ _ _ Hrun) as [Hmade _].
  apply Forall_lookup. intros i post Hi.
  destruct (Hmade i post Hi) as [(tags & Hget & Htags) _].
  destruct (generated_tags_three rt tags Htags) as (a & b & c & ->).
  exists a, b, c. exact Hget.
Qed.

Lemma three_hashtags_per_post_witness :
  Runs.generate Runs.two_tags 2 false
  = (Returned (Runs.posts_of (Runs.generate Runs.two_tags 2 false)),
     snd (Runs.generate Runs.two_tags 2 false))
  /\ Forall (fun post => exists a b c,
               Dict.get (lit "hashtags") post = Some (PList [PStr a; PStr b; PStr c]))
       (Runs.posts_of (Runs.generate Runs.two_tags 2 false)).
Proof.
  assert (H : Runs.generate Runs.two_tags 2 false
              = (Returned (Runs.posts_of (Runs.generate Runs.two_tags 2 false)),
                 snd (Runs.generate Runs.two_tags 2 false)))
    by (vm_compute; reflexivity).
  split; [exact H|].
  exact (three_hashtags_per_post _ _ _ _ _ _ _ _ _ H).
Defined.

(** C2, at the completion [Runs.four_tags]: the generator finds no
    locality tag among the four hashtags, overwrites the fourth with
    "BerlinEats" and then keeps the first three, so the post it returns
    has no hashtag from the locality list. *)
Theorem locality_tag_lost_by_truncation :
  exists post st',
    Runs.generate Runs.four_tags 1 false = (Returned [post], st')
    /\ Dict.get (lit "hashtags") post
       = Some (PList [PStr (lit "currywurst"); PStr (lit "streetfood"); PStr (lit "lunch")])
    /\ has_locality_tag Sample.ascii_runtime post = false.
Proof. do 2 eexists. vm_compute. repeat split; reflexivity. Qed.

(** C7, at the completion [Runs.spaced_tag]: the raw hashtag
    "# currywurst" is stripped of white space first and of its hash sign
    afterwards, so the hashtag " currywurst" of the post returned begins
    with a blank and is not normalized. *)
Theorem hashtag_keeps_blank_after_hash :
  exists post st',
    Runs.generate Runs.spaced_tag 1 false = (Returned [post], st')
    /\ Dict.get (lit "hashtags") post
       = Some (PList [PStr (lit " currywurst"); PStr (lit "BerlinEats"); PStr (lit "foodie")])
    /\ ~ normalized_tag (lit " currywurst").
Proof.
  do 2 eexists. split; [vm_compute; reflexivity|]. split; [reflexivity|].
  intros (_ & Hhead & _). destruct (Hhead 32 eq_refl) as [Hsp _]. discriminate.
Qed.

(** C8: every post record returned by
    [generate_multiple_social_media_posts] carries in "post_id" an
    identifier drawn from [uuid.uuid4] during the run, one draw per post;
    the identifiers drawn during one run being pairwise distinct, so are
    the "post_id" of any two posts at different places of the list. *)
Theorem post_ids_generated_and_distinct (rt : runtime) (ext : services) (menu_text : pystr)
    (num_posts : Z) (language : pystr) (ab_test_mode : bool) (st st' : state)
    (posts : list Dict.dict) :
  generate_multiple_social_media_posts rt ext menu_text num_posts language ab_test_mode st
  = (Returned posts, st') ->
  NoDup (uuid4 ext <$> seq (uuid_calls st) (uuid_calls st' - uuid_calls st)) ->
  (forall i post, posts !! i = Some post ->
     Dict.get (lit "post_id") post = Some (PStr (uuid4 ext (uuid_calls st + i)))
     /\ (uuid_calls st + i < uuid_calls st')%nat)
  /\ (forall i j p q, posts !! i = Some p -> posts !! j = Some q -> i <> j ->
        Dict.get (lit "post_id") p <> Dict.get (lit "post_id") q).
Proof.
  intros Hrun Hfresh.
  destruct (generate_multiple_posts_made rt ext _ _ _ _ _ _ _ Hrun) as (Hmade & _ & Hcalls).
  assert (Hid : forall i post, posts !! i = Some post ->
                  Dict.get (lit "post_id") post = Some (PStr (uuid4 ext (uuid_calls st + i)))
                  /\ (uuid_calls st + i < uuid_calls st')%nat).
  { intros i post Hi. split; [exact (proj2 (Hmade i post Hi))|].
    apply lookup_lt_Some in Hi. lia. }
  split; [exact Hid|].
  intros i j p q Hi Hj Hij Heq.
  destruct (Hid i p Hi) as [Hp Hlti], (Hid j q Hj) as [Hq Hltj].
  rewrite Hp, Hq in Heq. injection Heq as Heq.
  apply Hij. rewrite NoDup_alt in Hfresh.
  apply (Hfresh i j (uuid4 ext (uuid_calls st + i))).
  - rewrite list_lookup_fmap, lookup_seq_lt by lia. reflexivity.
  - rewrite list_lookup_fmap, lookup_seq_lt by lia. simpl. congruence.
Qed.

Lemma post_ids_generated_and_distinct_witness :
  Runs.generate Runs.two_tags 2 true
  = (Returned (Runs.posts_of (Runs.generate Runs.two_tags 2 true)),
     snd (Runs.generate Runs.two_tags 2 true))
  /\ NoDup (uuid4 (Sample.scripted Runs.two_tags)
              <$> seq (uuid_calls Sample.initial)
                      (uuid_calls (snd (Runs.generate Runs.two_tags 2 true))
                       - uuid_calls Sample.initial))
  /\ (forall i j p q,
        Runs.posts_of (Runs.generate Runs.two_tags 2 true) !! i = Some p ->
        Runs.posts_of (Runs.generate Runs.two_tags 2 true) !! j = Some q ->
        i <> j -> Dict.get (lit "post_id") p <> Dict.get (lit "post_id") q).
Proof.
  assert (H : Runs.generate Runs.two_tags 2 true
              = (Returned (Runs.posts_of (Runs.generate Runs.two_tags 2 true)),
                 snd (Runs.generate Runs.two_tags 2 true))) by (vm_compute; reflexivity).
  assert (Hfresh : NoDup (uuid4 (Sample.scripted Runs.two_tags)
                            <$> seq (uuid_calls Sample.initial)
                                    (uuid_calls (snd (Runs.generate Runs.two_tags 2 true))
                                     - uuid_calls Sample.initial))).
  { apply (bool_decide_unpack _). vm_compute. exact I. }
  split; [exact H|]. split; [exact Hfresh|].
  exact (proj2 (post_ids_generated_and_distinct _ _ _ _ _ _ _ _ _ H Hfresh)).
Defined.

(** ** The number of posts *)

(** C3, as the code has it: for every [num_posts] between 1 and 10 the
    generator either raises [ValueError] (the completion call fails, its
    content is missing or is not JSON, the JSON is not an object, or its
    "posts" entry is not iterable) or returns exactly [num_posts] posts
    without A/B mode and [2 * num_posts] with it, the posts built from the
    completion being padded with fallback posts and cut to that number. *)
Theorem post_count_or_value_error (rt : runtime) (ext : services) (menu_text : pystr)
    (num_posts : Z) (language : pystr) (ab_test_mode : bool) (st : state) :
  (1 <= num_posts <= 10)%Z ->
  count_outcome rt ext menu_text num_posts language ab_test_mode st.
Proof.
  intros Hn. unfold count_outcome.
  destruct (generate_multiple_runs rt ext menu_text num_posts language ab_test_mode st)
    as [Hrun Herr].
  unfold generator_run in Hrun. cbv zeta in Hrun, Herr.
  destruct (response_items _) as [items|].
  - destruct Hrun as (cleaned & fallbacks & st1 & st' & Hclean & Hrun & Hlen & Hfb & _).
    assert (Hneeded : actual_posts_needed num_posts ab_test_mode
                      = Z.of_nat (Z.to_nat (if ab_test_mode then 2 * num_posts else num_posts))).
    { unfold actual_posts_needed. destruct ab_test_mode; lia. }
    rewrite Hneeded in Hrun, Hlen.
    set (needed := Z.to_nat _) in *.
    exists cleaned, fallbacks, st1, (take needed (cleaned ++ fallbacks)), st'.
    split; [exact Hclean|]. split; [exact Hfb|]. split; [lia|]. split; [reflexivity|].
    split.
    + rewrite Hrun. unfold slice_to.
      destruct (Z.leb_spec 0 (Z.of_nat needed)); [|lia]. rewrite Nat2Z.id. reflexivity.
    + rewrite length_take, length_app. lia.
  - destruct (Herr eq_refl) as [msg Hmsg]. exists msg, (tick_completion st). exact Hmsg.
Qed.

Lemma post_count_or_value_error_witness :
  (1 <= 2 <= 10)%Z
  /\ count_outcome Sample.ascii_runtime (Sample.scripted Runs.two_tags) (lit "Currywurst 4.50")
       2 (lit "english") true Sample.initial.
Proof.
  assert (H : (1 <= 2 <= 10)%Z) by lia.
  split; [exact H|].
  exact (post_count_or_value_error _ _ _ _ _ _ _ H).
Defined.

(** C3 as stated fails: when the completion is the object
    [{"posts": null}], the generator asked for one post raises and
    returns no list at all. *)
Lemma no_posts_returned_for_null_posts :
  ~ exists posts st',
      Runs.generate Runs.null_posts 1 false = (Returned posts, st') /\ length posts = 1%nat.
Proof. intros (posts & st' & H & _). vm_compute in H. discriminate. Qed.

(** ** The request handlers *)

Lemma read_num_posts_requested (rt : runtime) (form : generate_form) (st : state) :
  read_num_posts rt (form_num_posts form) st
  = match requested_num_posts rt form with
    | Some z => (Returned z, st)
    | None => (Raised (ValueError (lit "invalid literal for int() with base 10")), st)
    end.
Proof.
  unfold read_num_posts, requested_num_posts.
  destruct (form_num_posts form) as [s|]; [|reflexivity].
  destruct (int_of_str rt s); reflexivity.
Qed.

(** C9: when the stripped menu text is empty, or the requested number of
    posts is below 1 or above 10, [generate_posts] flashes an error
    message and redirects; the completion service is not called and the
    posts stored in the session are left as they were. *)
Theorem invalid_form_flash_redirect (rt : runtime) (ext : services) (form : generate_form)
    (st : state) :
  stripped_menu_text form = []
  \/ (exists n, requested_num_posts rt form = Some n /\ (n < 1 \/ 10 < n)%Z) ->
  exists message st',
    generate_posts rt ext form st = (Returned (Redirect (lit "index")), st')
    /\ flashes (sess st') = flashes (sess st) ++ [(lit "error", message)]
    /\ completion_calls st' = completion_calls st
    /\ current_posts (sess st') = current_posts (sess st).
Proof.
  intros Hbad.
  assert (Hgoal : exists message,
             generate_posts rt ext form st
             = (Returned (Redirect (lit "index")), flashed message st)).
  { unfold generate_posts, try_except. unfold bind at 1.
    rewrite read_num_posts_requested. fold (stripped_menu_text form).
    destruct (requested_num_posts rt form) as [n|] eqn:Hn.
    - destruct (pystr_eqb (stripped_menu_text form) []) eqn:Hmenu.
      + eexists; reflexivity.
      + destruct Hbad as [Hempty | (n' & [= <-] & Hrange)].
        * apply pystr_eqb_neq in Hmenu. contradiction.
        * assert (Hb : ((n <? 1)%Z || (10 <? n)%Z) = true).
          { apply orb_true_iff. destruct Hrange; [left | right]; apply Z.ltb_lt; assumption. }
          rewrite Hb. eexists; reflexivity.
    - eexists; reflexivity. }
  destruct Hgoal as [message Hrun].
  exists message, (flashed message st). split; [exact Hrun|].
  repeat split; reflexivity.
Qed.

Lemma invalid_form_flash_redirect_witness :
  (stripped_menu_text Forms.eleven_posts = []
   \/ (exists n, requested_num_posts Sample.ascii_runtime Forms.eleven_posts = Some n
                 /\ (n < 1 \/ 10 < n)%Z))
  /\ exists message st',
       generate_posts Sample.ascii_runtime (Sample.scripted Runs.two_tags) Forms.eleven_posts
         Sample.initial = (Returned (Redirect (lit "index")), st')
       /\ flashes (sess st') = flashes (sess Sample.initial) ++ [(lit "error", message)]
       /\ completion_calls st' = completion_calls Sample.initial
       /\ current_posts (sess st') = current_posts (sess Sample.initial).
Proof.
  assert (H : stripped_menu_text Forms.eleven_posts = []
              \/ (exists n, requested_num_posts Sample.ascii_runtime Forms.eleven_posts = Some n
                            /\ (n < 1 \/ 10 < n)%Z)).
  { right. exists 11%Z. split; [vm_compute; reflexivity | lia]. }
  split; [exact H|].
  exact (invalid_form_flash_redirect _ _ _ _ H).
Defined.

(** ** Uploads *)

Lemma allowed_file_extension (rt : runtime) (name : pystr) :
  allowed_file rt name
  = match extension name with
    | Some ext_part => str_in (py_lower rt ext_part) ALLOWED_EXTENSIONS
    | None => false
    end.
Proof.
  unfold allowed_file, extension.
  destruct (rsplit1 46 name) as [[a b]|] eqn:Hsplit; simpl.
  - destruct (existsb (N.eqb 46) name) eqn:Hdot; [reflexivity|].
    apply rsplit1_none in Hdot. congruence.
  - apply andb_false_r.
Qed.

(** [upload_image], by whether the upload is accepted. *)
Lemma upload_image_runs (rt : runtime) (ext : services) (req : upload_request)
    (st : state) :
  let run := upload_image rt ext req st in
  if upload_accepts rt req then
    exists file ext_part name imgs,
      files_image req = Some file
      /\ extension (filename file) = Some ext_part
      /\ name = uuid4 ext (uuid_calls st) ++ lit "." ++ py_lower rt ext_part
      /\ fst run = Returned (Jsonify [ (lit "success", PBool true); (lit "filename", PStr name);
                                       (lit "url", PStr (image_route name)) ] 200)
      /\ saved_files (snd run)
         = saved_files st ++ [(UPLOAD_FOLDER ++ lit "/" ++ name, filename file)]
      /\ uploaded_images (sess (snd run)) = Some imgs
      /\ imgs !! str_of_Z (Z.of_nat (post_index req)) = Some name
  else
    (exists message, fst run = Returned (Jsonify (error_body message) 400))
    /\ snd run = st.
Proof.
  intros run. subst run. unfold upload_accepts, upload_image.
  destruct (files_image req) as [file|]; [|split; [eexists|]; reflexivity].
  unfold file_bool.
  change (py_bool (PStr (filename file))) with (negb (pystr_eqb (filename file) [])).
  destruct (pystr_eqb (filename file) []) eqn:Hname; cbn [negb andb];
    [split; [eexists|]; reflexivity|].
  rewrite allowed_file_extension.
  destruct (extension (filename file)) as [ext_part|] eqn:Hext;
    [|split; [eexists|]; reflexivity].
  destruct (str_in (py_lower rt ext_part) ALLOWED_EXTENSIONS);
    [|split; [eexists|]; reflexivity].
  exists file, ext_part. eexists. eexists.
  split; [reflexivity|]. split; [exact Hext|]. split; [reflexivity|].
  cbv beta iota delta [bind new_uuid modify ret fst snd]. cbn [from_option id].
  destruct (current_posts _); simpl;
    (split; [reflexivity|]); (split; [reflexivity|]); (split; [reflexivity|]);
    apply lookup_insert_eq.
Qed.

(** C10: [upload_image] saves the file and records it in the session
    exactly when the request carries a file with a non-empty name whose
    extension, the part after the last dot in lower case, is one of png,
    jpg, jpeg, gif and webp; otherwise it answers a JSON error with
    status 400 and leaves the state, the session included, as it was. *)
Theorem upload_saved_iff_accepted (rt : runtime) (ext : services) (req : upload_request)
    (st : state) :
  let run := upload_image rt ext req st in
  ((exists entry, saved_files (snd run) = saved_files st ++ [entry])
   <-> upload_accepts rt req = true)
  /\ if upload_accepts rt req then
       exists file ext_part name imgs,
         files_image req = Some file
         /\ filename file <> []
         /\ extension (filename file) = Some ext_part
         /\ str_in (py_lower rt ext_part) ALLOWED_EXTENSIONS = true
         /\ name = uuid4 ext (uuid_calls st) ++ lit "." ++ py_lower rt ext_part
         /\ fst run = Returned (Jsonify [ (lit "success", PBool true);
                                          (lit "filename", PStr name);
                                          (lit "url", PStr (image_route name)) ] 200)
         /\ saved_files (snd run)
            = saved_files st ++ [(UPLOAD_FOLDER ++ lit "/" ++ name, filename file)]
         /\ uploaded_images (sess (snd run)) = Some imgs
         /\ imgs !! str_of_Z (Z.of_nat (post_index req)) = Some name
     else
       (exists message, fst run = Returned (Jsonify (error_body message) 400))
       /\ snd run = st.
Proof.
  intros run. pose proof (upload_image_runs rt ext req st) as H. cbv zeta in H. fold run in H.
  destruct (upload_accepts rt req) eqn:Hacc.
  - destruct H as (file & ext_part & name & imgs & Hfile & Hext & Hname & Hr & Hsaved & Himgs).
    split; [split; [reflexivity | intros _; eexists; exact Hsaved]|].
    exists file, ext_part, name, imgs.
    unfold upload_accepts in Hacc. rewrite Hfile, Hext in Hacc.
    apply andb_true_iff in Hacc as [Hne Hin].
    split; [exact Hfile|]. split.
    { apply pystr_eqb_neq. destruct (pystr_eqb (filename file) []); [discriminate|reflexivity]. }
    split; [exact Hext|]. split; [exact Hin|]. split; [exact Hname|]. split; [exact Hr|].
    split; [exact Hsaved | exact Himgs].
  - destruct H as [Hmsg Hst]. split; [|split; [exact Hmsg | exact Hst]].
    split; [|discriminate]. intros [entry Hentry]. rewrite Hst in Hentry.
    apply (f_equal length) in Hentry. rewrite length_app in Hentry. simpl in Hentry. lia.
Qed.

(** ** Exports *)




(** The state [export_posts] leaves: the one it found, with the flash
    message of the empty export added or the clock read once more. *)
Lemma export_posts_state (rt : runtime) (ext : services) (arg_format : option pystr)
    (st : state) :
  snd (export_posts rt ext arg_format st) = st
  \/ snd (export_posts rt ext arg_format st)
     = flashed (lit "No posts to export. Please generate posts first.") st
  \/ snd (export_posts rt ext arg_format st) = tick_clock st.
Proof.
  remember (export_posts rt ext arg_format st) as run eqn:Hrun.
  unfold export_posts, bind at 1, get_state in Hrun.
  destruct (default [] (current_posts (sess st))) as [|post posts];
    [subst run; right; left; reflexivity|].
  destruct (pystr_eqb _ (lit "csv")); [|subst run; right; right; reflexivity].
  unfold bind in Hrun.
  assert (Hrows : forall i l st0, snd (csv_rows i l st0) = st0).
  { intros i l; revert i; induction l as [|p l IH]; intros i st0; simpl; [reflexivity|].
    destruct (csv_row i p); [|reflexivity]. unfold bind. specialize (IH (S i) st0).
    destruct (csv_rows (S i) l st0) as [[rows|e] st2]; exact IH. }
  specialize (Hrows 0%nat (post :: posts) st).
  destruct (csv_rows 0 (post :: posts) st) as [[rows|e] st2]; simpl in Hrows; subst st2 run;
    [|left; reflexivity].
  cbv zeta. destruct (csv_encodable rt _); left; reflexivity.
Qed.


(** C5: for a non-empty list of posts stored in the session and any
    format other than "csv", the JSON export is an object with exactly
    the keys "menu_text", "language", "generated_at" and "posts", in
    which "posts" is the list of the session as it stands and "language"
    is that of the session, or "english" when the session has none. *)
Theorem json_export_object (rt : runtime) (ext : services) (arg_format : option pystr)
    (st : state) (posts : list Dict.dict) :
  current_posts (sess st) = Some posts -> posts <> [] -> arg_format <> Some (lit "csv") ->
  exists data st',
    export_posts rt ext arg_format st
    = (Returned (SendJson (PDict data) (lit "social_media_posts.json")), st')
    /\ Dict.keys data = [lit "menu_text"; lit "language"; lit "generated_at"; lit "posts"]
    /\ Dict.get (lit "posts") data = Some (PList (map PDict posts))
    /\ Dict.get (lit "language") data
       = Some (PStr (default (lit "english") (current_language (sess st))))
    /\ Dict.get (lit "menu_text") data
       = Some (PStr (default [] (current_menu_text (sess st))))
    /\ Dict.get (lit "generated_at") data = Some (PStr (now_isoformat ext (clock_reads st)))
    /\ sess st' = sess st.
Proof.
  intros Hposts Hne Hfmt.
  assert (Hcsv : pystr_eqb (default (lit "json") arg_format) (lit "csv") = false).
  { apply pystr_eqb_neq. destruct arg_format as [f|]; simpl; [congruence | discriminate]. }
  unfold export_posts, bind at 1, get_state. rewrite Hposts, Hcsv. cbn [from_option id].
  destruct posts as [|post posts']; [contradiction|].
  do 2 eexists. split; [reflexivity|]. repeat split; reflexivity.
Qed.

(** ** Failures *)

Section HandlerFacts.

Context (rt : runtime) (ext : services).

Lemma flashed_flash_and_redirect (st st0 : state) (message endpoint : pystr) :
  sess st0 = sess st ->
  flash_and_redirect st (Returned (Redirect endpoint), flashed message st0).
Proof.
  intros Hs. exists endpoint, (lit "error"), message. simpl. rewrite Hs. split; reflexivity.
Qed.

(** The generator asked for one post or more returns a non-empty list. *)
Lemma generated_posts_nonempty (menu_text : pystr) (n : Z) (language : pystr)
    (ab_test_mode : bool) (st st' : state) (posts : list Dict.dict) :
  (1 <= n)%Z ->
  generate_multiple_social_media_posts rt ext menu_text n language ab_test_mode st
  = (Returned posts, st') ->
  posts <> [].
Proof.
  intros Hn Hrun.
  destruct (generate_multiple_runs rt ext menu_text n language ab_test_mode st) as [H _].
  unfold generator_run in H. rewrite Hrun in H.
  destruct (response_items _); [|destruct H as [e H]; discriminate].
  destruct H as (cleaned & fallbacks & st1 & st2 & _ & [= -> ->] & Hlen & _).
  assert (Hpos : (1 <= actual_posts_needed n ab_test_mode)%Z)
    by (unfold actual_posts_needed; destruct ab_test_mode; lia).
  intros Hnil. apply (f_equal length) in Hnil. apply (f_equal Z.of_nat) in Hnil.
  rewrite slice_to_length in Hnil; [simpl in Hnil; lia|].
  rewrite length_app. lia.
Qed.

(** [generate_posts], path by path. *)
Lemma generate_posts_paths (form : generate_form) (st : state) :
  generate_posts rt ext form st
  = let to_index := Returned (Redirect (lit "index")) in
    match requested_num_posts rt form with
    | None => (to_index, flashed (failure_message (ValueError [])) st)
    | Some n =>
        if pystr_eqb (stripped_menu_text form) [] then
          (to_index, flashed (lit "Please enter your restaurant menu text.") st)
        else if (n <? 1)%Z || (10 <? n)%Z then
          (to_index, flashed (lit "Number of posts must be between 1 and 10.") st)
        else
          match generate_multiple_social_media_posts rt ext (stripped_menu_text form) n
                  (form_language_or_default form) (form_ab_test form) st with
          | (Returned [], st1) =>
              (to_index, flashed (lit "Failed to generate posts. Please try again.") st1)
          | (Returned posts, st1) =>
              let merged := merge_uploaded (default ∅ (uploaded_images (sess st1))) posts in
              (Returned (RenderTemplate (lit "results.html")
                           [ (lit "posts", PList (map PDict merged));
                             (lit "menu_text", PStr (stripped_menu_text form));
                             (lit "language", PStr (form_language_or_default form));
                             (lit "ab_test_mode", PBool (form_ab_test form)) ]),
               set_sess (set_current merged (stripped_menu_text form)
                           (form_language_or_default form) (sess st1)) st1)
          | (Raised e, st1) => (to_index, flashed (failure_message e) st1)
          end
    end.
Proof.
  unfold generate_posts, try_except. unfold bind at 1.
  rewrite read_num_posts_requested.
  fold (stripped_menu_text form) (form_language_or_default form) (form_ab_test form).
  cbv zeta.
  destruct (requested_num_posts rt form) as [n|]; [|reflexivity].
  destruct (pystr_eqb (stripped_menu_text form) []); [reflexivity|].
  destruct ((n <? 1)%Z || (10 <? n)%Z); [reflexivity|].
  unfold bind at 1.
  destruct (generate_multiple_social_media_posts _ _ _ _ _ _ _) as [[[|post posts]|e] st1];
    [reflexivity | reflexivity | destruct e; reflexivity].
Qed.

(** What [generate_posts] answers, failure by failure. *)
Lemma generate_posts_runs (form : generate_form) (st : state) :
  if generation_fails rt ext form st
  then flash_and_redirect st (generate_posts rt ext form st)
  else generation_renders rt ext form st (generate_posts rt ext form st).
Proof.
  rewrite generate_posts_paths. unfold generation_fails. cbv zeta.
  destruct (requested_num_posts rt form) as [n|] eqn:Hn;
    [|apply flashed_flash_and_redirect; reflexivity].
  destruct (pystr_eqb (stripped_menu_text form) []) eqn:Hmenu; cbn [orb];
    [apply flashed_flash_and_redirect; reflexivity|].
  destruct ((n <? 1)%Z || (10 <? n)%Z) eqn:Hrange; cbn [orb];
    [apply flashed_flash_and_redirect; reflexivity|].
  apply orb_false_iff in Hrange as [Hlo Hhi].
  apply Z.ltb_ge in Hlo, Hhi.
  destruct (generate_multiple_runs rt ext (stripped_menu_text form) n
              (form_language_or_default form) (form_ab_test form) st) as [Hrun Herr].
  unfold generator_run in Hrun. cbv zeta in Hrun, Herr.
  destruct (response_items _) as [items|].
  - destruct Hrun as (cleaned & fallbacks & st1 & st' & _ & Hrun & _ & _ & _ & Hmade).
    pose proof (generated_posts_nonempty _ _ _ _ _ _ _ Hlo Hrun) as Hne.
    rewrite Hrun.
    assert (Hs : sess st' = sess st) by (destruct Hmade as [-> _]; reflexivity).
    destruct (slice_to _ _) as [|post posts] eqn:Hposts; [contradiction|].
    exists n, (post :: posts), st'.
    split; [exact Hn|]. split; [exact Hrun|]. split; [exact Hne|].
    cbv zeta. rewrite Hs. split; reflexivity.
  - destruct (Herr eq_refl) as [msg Hmsg]. rewrite Hmsg.
    apply flashed_flash_and_redirect. reflexivity.
Qed.

(** With no post in the session, [export_posts] flashes and redirects. *)
Lemma export_posts_without_posts (arg_format : option pystr) (st : state) :
  default [] (current_posts (sess st)) = [] ->
  export_posts rt ext arg_format st
  = (Returned (Redirect (lit "index")),
     flashed (lit "No posts to export. Please generate posts first.") st).
Proof.
  intros Hnone. unfold export_posts, bind at 1, get_state. rewrite Hnone. reflexivity.
Qed.

End HandlerFacts.

(** C6 as stated fails: [upload_image], given a request without a
    file, answers with a JSON body and no flash message or redirect. *)
Lemma upload_failure_not_flashed :
  ~ flash_and_redirect Sample.initial
      (upload_image Sample.ascii_runtime (Sample.scripted Runs.two_tags) Forms.no_upload
         Sample.initial).
Proof. intros (endpoint & category & message & H & _). vm_compute in H. discriminate. Qed.

(** C6, as the code has it: [generate_posts] catches every failure
    (a number of posts that is not a number, a blank menu text, a number
    out of range, a completion that fails or is malformed) and answers
    with a flash message and a redirect, and otherwise renders the
    posts; [export_posts] answers with a flash message and a redirect
    when the session holds no post; [upload_image] answers a refused
    upload with a JSON error and status 400, without flash message or
    redirect. *)
Theorem failures_by_handler (rt : runtime) (ext : services) :
  (forall form st,
     if generation_fails rt ext form st
     then flash_and_redirect st (generate_posts rt ext form st)
     else generation_renders rt ext form st (generate_posts rt ext form st))
  /\ (forall arg_format st,
        default [] (current_posts (sess st)) = [] ->
        flash_and_redirect st (export_posts rt ext arg_format st))
  /\ (forall req st,
        upload_accepts rt req = false ->
        exists message,
          upload_image rt ext req st = (Returned (Jsonify (error_body message) 400), st)).
Proof.
  split; [exact (generate_posts_runs rt ext)|]. split.
  - intros arg_format st Hnone. rewrite (export_posts_without_posts rt ext _ _ Hnone).
    apply flashed_flash_and_redirect. reflexivity.
  - intros req st Hrefused.
    pose proof (upload_image_runs rt ext req st) as H. cbv zeta in H.
    rewrite Hrefused in H. destruct H as [[message Hmsg] Hst].
    exists message. destruct (upload_image rt ext req st) as [r st']; simpl in *.
    congruence.
Qed.

Lemma failures_by_handler_witness :
  (generation_fails Sample.ascii_runtime (Sample.scripted Runs.null_posts) Forms.two_posts
     Sample.initial = true
   /\ flash_and_redirect Sample.initial
        (generate_posts Sample.ascii_runtime (Sample.scripted Runs.null_posts) Forms.two_posts
           Sample.initial))
  /\ (default [] (current_posts (sess Sample.initial)) = []
      /\ flash_and_redirect Sample.initial
           (export_posts Sample.ascii_runtime (Sample.scripted Runs.null_posts)
              (Some (lit "csv")) Sample.initial))
  /\ (upload_accepts Sample.ascii_runtime Forms.exe_upload = false
      /\ exists message,
           upload_image Sample.ascii_runtime (Sample.scripted Runs.null_posts) Forms.exe_upload
             Sample.initial
           = (Returned (Jsonify (error_body message) 400), Sample.initial)).
Proof.
  destruct (failures_by_handler Sample.ascii_runtime (Sample.scripted Runs.null_posts))
    as (Hgen & Hexp & Hup).
  assert (Hfails : generation_fails Sample.ascii_runtime (Sample.scripted Runs.null_posts)
                     Forms.two_posts Sample.initial = true) by (vm_compute; reflexivity).
  assert (Hnone : default [] (current_posts (sess Sample.initial)) = []) by reflexivity.
  assert (Hrefused : upload_accepts Sample.ascii_runtime Forms.exe_upload = false)
    by (vm_compute; reflexivity).
  split; [split; [exact Hfails|]|split; [split; [exact Hnone|]|split; [exact Hrefused|]]].
  - pose proof (Hgen Forms.two_posts Sample.initial) as H. rewrite Hfails in H. exact H.
  - exact (Hexp _ _ Hnone).
  - exact (Hup _ _ Hrefused).
Defined.

(** ** The posts kept in the session *)



Lemma dict_get_set_ne (k k' : pystr) (v : pyval) (d : Dict.dict) :
  pystr_eqb k k' = false -> Dict.get k (Dict.set k' v d) = Dict.get k d.
Proof.
  intros Hne. induction d as [|[k0 v0] d IH]; simpl.
  - rewrite Hne; reflexivity.
  - destruct (pystr_eqb k' k0) eqn:Hk; simpl.
    + apply pystr_eqb_eq in Hk as <-. rewrite Hne; reflexivity.
    + rewrite IH; reflexivity.
Qed.

Lemma stored_post_set_image (v : pyval) (post : Dict.dict) :
  stored_post post -> stored_post (Dict.set (lit "image_url") v post).
Proof.
  intros [tags H]. exists tags. rewrite dict_get_set_ne; [exact H | reflexivity].
Qed.

Lemma merge_uploaded_stored (uploaded : gmap pystr pystr) (posts : list Dict.dict) :
  Forall stored_post posts -> Forall stored_post (merge_uploaded uploaded posts).
Proof.
  intros H. apply Forall_lookup. intros i post Hi.
  unfold merge_uploaded in Hi. rewrite list_lookup_imap in Hi.
  destruct (posts !! i) as [p|] eqn:Hp; [|discriminate]. simpl in Hi.
  pose proof (proj1 (Forall_lookup _ _) H i p Hp) as Hstored.
  destruct (uploaded !! _); injection Hi as <-;
    [apply stored_post_set_image|]; exact Hstored.
Qed.

Lemma set_post_image_stored (i : nat) (url : pystr) (posts : list Dict.dict) :
  Forall stored_post posts -> Forall stored_post (set_post_image i url posts).
Proof.
  intros H. unfold set_post_image.
  destruct (i <? length posts)%nat; [|exact H].
  destruct (posts !! i) as [p|] eqn:Hp; [|exact H].
  apply Forall_insert; [exact H|]. apply stored_post_set_image.
  exact (proj1 (Forall_lookup _ _) H i p Hp).
Qed.

Section SessionInvariant.

Context (rt : runtime) (ext : services).

Lemma posts_made_stored (n : nat) (posts : list Dict.dict) :
  posts_made rt ext n posts -> Forall stored_post posts.
Proof.
  intros H. apply Forall_lookup. intros i post Hi.
  destruct (H i post Hi) as [(tags & Hget & _) _]. exists tags; exact Hget.
Qed.

Lemma generate_multiple_keeps_session (menu_text : pystr) (n : Z) (language : pystr)
    (ab_test_mode : bool) (st : state) :
  sess (snd (generate_multiple_social_media_posts rt ext menu_text n language
               ab_test_mode st)) = sess st.
Proof.
  destruct (generate_multiple_runs rt ext menu_text n language ab_test_mode st) as [H Herr].
  unfold generator_run in H. cbv zeta in H, Herr.
  destruct (response_items _).
  - destruct H as (cleaned & fallbacks & st1 & st' & _ & -> & _ & _ & _ & Hmade).
    destruct Hmade as [Hs _]. simpl. rewrite Hs. reflexivity.
  - destruct (Herr eq_refl) as [msg ->]. reflexivity.
Qed.

(** The posts kept in the session are always posts the generator
    made, whose hashtags are strings: the three handlers keep it so. *)
Lemma handlers_keep_posts_stored (st : state) :
  session_posts_stored (sess st) ->
  (forall form, session_posts_stored (sess (snd (generate_posts rt ext form st))))
  /\ (forall req, session_posts_stored (sess (snd (upload_image rt ext req st))))
  /\ (forall arg_format,
        session_posts_stored (sess (snd (export_posts rt ext arg_format st)))).
Proof.
  intros Hst. split; [|split].
  - intros form. rewrite generate_posts_paths. cbv zeta.
    destruct (requested_num_posts rt form) as [n|]; [|exact Hst].
    destruct (pystr_eqb _ []); [exact Hst|].
    destruct (_ || _); [exact Hst|].
    pose proof (generate_multiple_keeps_session (stripped_menu_text form) n
                  (form_language_or_default form) (form_ab_test form) st) as Hs.
    destruct (generate_multiple_social_media_posts _ _ _ _ _ _ _)
      as [[[|post posts]|e] st1] eqn:Hrun; simpl in Hs.
    + intros posts Hp. simpl in Hp. rewrite Hs in Hp. exact (Hst posts Hp).
    + intros merged [= <-]. apply merge_uploaded_stored.
      destruct (generate_multiple_posts_made rt ext _ _ _ _ _ _ _ Hrun) as [Hmade _].
      exact (posts_made_stored _ _ Hmade).
    + intros posts Hp. simpl in Hp. rewrite Hs in Hp. exact (Hst posts Hp).
  - intros req.
    pose proof (upload_image_runs rt ext req st) as H. cbv zeta in H.
    destruct (upload_accepts rt req) eqn:Hacc; [|destruct H as [_ ->]; exact Hst].
    clear H. unfold upload_accepts in Hacc. unfold upload_image.
    destruct (files_image req) as [file|]; [|discriminate].
    apply andb_true_iff in Hacc as [Hname Hext].
    unfold file_bool.
    change (py_bool (PStr (filename file))) with (negb (pystr_eqb (filename file) [])).
    rewrite allowed_file_extension, Hext.
    destruct (pystr_eqb (filename file) []); [discriminate|]. cbn [negb andb].
    cbv beta iota delta [bind new_uuid modify ret snd].
    cbn [sess set_sess tick_uuid add_saved_file set_uploaded current_posts].
    destruct (current_posts (sess st)) as [posts|] eqn:Hposts.
    + intros posts' [= <-]. apply set_post_image_stored. exact (Hst posts Hposts).
    + intros posts' Hp. simpl in Hp. congruence.
  - intros arg_format.
    destruct (export_posts_state rt ext arg_format st) as [-> | [-> | ->]]; exact Hst.
Qed.

End SessionInvariant.

(** ** A session after one request to /generate *)



Lemma json_export_object_witness :
  (current_posts (sess Served.served) = Some Served.served_posts
   /\ Served.served_posts <> []
   /\ (None : option pystr) <> Some (lit "csv"))
  /\ exists data st',
       export_posts Sample.ascii_runtime (Sample.scripted Runs.two_tags) None Served.served
       = (Returned (SendJson (PDict data) (lit "social_media_posts.json")), st')
       /\ Dict.keys data = [lit "menu_text"; lit "language"; lit "generated_at"; lit "posts"]
       /\ Dict.get (lit "posts") data = Some (PList (map PDict Served.served_posts)).
Proof.
  assert (Hposts : current_posts (sess Served.served) = Some Served.served_posts)
    by (vm_compute; reflexivity).
  assert (Hne : Served.served_posts <> []) by (vm_compute; discriminate).
  assert (Hfmt : (None : option pystr) <> Some (lit "csv")) by discriminate.
  split; [split; [exact Hposts | split; [exact Hne | exact Hfmt]]|].
  destruct (json_export_object Sample.ascii_runtime (Sample.scripted Runs.two_tags) None
              Served.served Served.served_posts Hposts Hne Hfmt) as (data & st' & Hrun & Hkeys & Hp & _).
  exists data, st'. split; [exact Hrun | split; [exact Hkeys | exact Hp]].
Defined.

(** ** What the normalisation of hashtags does ensure *)

Lemma trimmed_tag_checked (tag : pystr) : trimmed_tagb tag = true -> trimmed_tag tag.
Proof.
  unfold trimmed_tagb, trimmed_tag. intros H.
  apply andb_true_iff in H as [H Hlast]. apply andb_true_iff in H as [Hne Hhead].
  split; [apply pystr_eqb_neq; destruct (pystr_eqb tag []); [discriminate | reflexivity]|].
  split; intros c Hc; rewrite Hc in *.
  - apply negb_true_iff, N.eqb_neq in Hhead. exact Hhead.
  - apply negb_true_iff in Hlast. exact Hlast.
Qed.

Lemma cleaned_tag_trimmed (s : pystr) :
  py_lstrip_hash (py_strip s) <> [] -> trimmed_tag (py_lstrip_hash (py_strip s)).
Proof.
  intros Hne. split; [exact Hne|]. split.
  - intros c Hc. apply head_Some in Hc as [r Hr].
    pose proof (lstrip_by_head is_hash _ _ _ Hr) as Hhash.
    unfold is_hash in Hhash. apply N.eqb_neq in Hhash. exact Hhash.
  - intros c Hc. unfold py_lstrip_hash in *.
    destruct (lstrip_by_suffix is_hash (py_strip s)) as (pre & Hsplit & _).
    apply (rstrip_by_last is_space (lstrip_by is_space s)). fold (py_strip s).
    rewrite Hsplit, last_app, Hc. reflexivity.
Qed.

Section TrimmedTags.

Context (rt : runtime).

Lemma clean_tags_trimmed (raw : list pyval) : Forall trimmed_tag (clean_tags rt raw).
Proof.
  eapply Forall_impl; [apply clean_tags_shape|].
  intros t (Hne & s & ->). apply cleaned_tag_trimmed. exact Hne.
Qed.

Lemma generated_tags_trimmed (tags : list pystr) :
  generated_tags rt tags -> Forall trimmed_tag tags.
Proof.
  intros [-> | [raw ->]].
  - repeat (apply Forall_cons_2; [apply trimmed_tag_checked; reflexivity|]). apply Forall_nil_2.
  - destruct raw;
      try (repeat (apply Forall_cons_2; [apply trimmed_tag_checked; reflexivity|]);
           apply Forall_nil_2).
    unfold normalize_hashtags.
    destruct (fill_hashtags_prefix rt (3 - length (take 3 (ensure_berlin_tag rt (clean_tags rt l))))
                (take 3 (ensure_berlin_tag rt (clean_tags rt l)))) as (added & -> & Hadded).
    apply Forall_app. split.
    + apply Forall_take. unfold ensure_berlin_tag.
      pose proof (clean_tags_trimmed l) as Hclean.
      assert (Hb : trimmed_tag (lit "BerlinEats")) by (apply trimmed_tag_checked; reflexivity).
      destruct (negb _); [|exact Hclean].
      destruct (3 <=? _)%nat.
      * apply Forall_insert; assumption.
      * apply Forall_app. split; [exact Hclean | apply Forall_cons_2; [exact Hb | apply Forall_nil_2]].
    + eapply Forall_impl; [exact Hadded|]. intros t Ht.
      apply trimmed_tag_checked.
      repeat (apply elem_of_cons in Ht as [-> | Ht]; [reflexivity|]).
      apply elem_of_nil in Ht. contradiction.
Qed.

(** Every hashtag of a post returned by the generator is a string
    that is not empty, does not begin with a hash sign and does not end
    with white space. *)
Lemma returned_hashtags_trimmed (ext : services) (menu_text : pystr) (num_posts : Z)
    (language : pystr) (ab_test_mode : bool) (st st' : state) (posts : list Dict.dict) :
  generate_multiple_social_media_posts rt ext menu_text num_posts language ab_test_mode st
  = (Returned posts, st') ->
  Forall (fun post => exists tags,
            Dict.get (lit "hashtags") post = Some (PList (map PStr tags))
            /\ Forall trimmed_tag tags) posts.
Proof.
  intros Hrun.
  destruct (generate_multiple_posts_made rt ext _ _ _ _ _ _ _ Hrun) as [Hmade _].
  apply Forall_lookup. intros i post Hi.
  destruct (Hmade i post Hi) as [(tags & Hget & Htags) _].
  exists tags. split; [exact Hget | exact (generated_tags_trimmed tags Htags)].
Qed.

End TrimmedTags.

(** ** Worked requests *)

(** A blank menu text is refused before anything else happens. *)
Example blank_menu_refused :
  generate_posts Sample.ascii_runtime (Sample.scripted Runs.two_tags) Forms.blank_menu
    Sample.initial
  = (Returned (Redirect (lit "index")),
     flashed (lit "Please enter your restaurant menu text.") Sample.initial).
Proof. vm_compute. reflexivity. Qed.

(** "Wurst.final.PNG" is accepted, saved under a fresh name with the
    extension in lower case, and becomes the image of the second post. *)
Example png_upload_saved :
  exists body st',
    upload_image Sample.ascii_runtime (Sample.scripted Runs.two_tags) Forms.png_upload
      Served.served = (Returned (Jsonify body 200), st')
    /\ Dict.get (lit "filename") body = Some (PStr (lit "uuid-2.png"))
    /\ saved_files st' = [(lit "/tmp/uploads/uuid-2.png", lit "Wurst.final.PNG")]
    /\ (Dict.get (lit "image_url") <$> default [] (current_posts (sess st')) !! 1%nat)
       = Some (Some (PStr (lit "/uploaded_image/uuid-2.png"))).
Proof. do 2 eexists. vm_compute. repeat split; reflexivity. Qed.

(** A locality tag in fourth place counts for the check and is then cut. *)
Example locality_tag_in_fourth_place :
  normalize_hashtags Sample.ascii_runtime
    (PList [PStr (lit "currywurst"); PStr (lit "streetfood"); PStr (lit "lunch");
            PStr (lit "Kreuzberg")])
  = [lit "currywurst"; lit "streetfood"; lit "lunch"].
Proof. vm_compute. reflexivity. Qed.

(** * Further properties *)

(** ** One post *)

Section OnePost.

Context (rt : runtime) (ext : services).

(** The record [build_post] makes, field by field. *)
Lemma build_post_result (language : pystr) (d : Dict.dict) (st : state) :
  let image_prompt := Dict.get_default (lit "image_prompt") (PStr []) d in
  let base :=
    [ (lit "caption", PStr (py_str rt (Dict.get_default (lit "caption") (PStr []) d)));
      (lit "hashtags",
       PList (map PStr (normalize_hashtags rt
                          (Dict.get_default (lit "hashtags") (PList []) d))));
      (lit "image_url", image_for ext (image_calls st) image_prompt);
      (lit "image_prompt", image_prompt);
      (lit "variant", Dict.get_default (lit "variant") (PStr []) d);
      (lit "post_id", PStr (uuid4 ext (uuid_calls st))) ] in
  build_post rt ext language d st
  = (Returned
       (if pystr_eqb language (lit "both")
           && py_bool (Dict.get_default (lit "caption_german") PNone d)
        then base ++ [(lit "caption_german",
                       PStr (py_str rt (Dict.get_default (lit "caption_german") (PStr []) d)))]
        else base),
     tick_uuid (if py_bool image_prompt then tick_image st else st)).
Proof.
  cbv zeta. unfold build_post, image_for.
  destruct (py_bool (Dict.get_default (lit "image_prompt") (PStr []) d)).
  - cbv beta iota delta [try_except generate_food_image bind call_images raise ret new_uuid].
    destruct (images_generate ext (image_calls st) _) as [| |[url|]];
      destruct (_ && _); reflexivity.
  - cbv beta iota delta [bind ret new_uuid]. destruct (_ && _); reflexivity.
Qed.

(** The record [fallback_post] makes. *)
Lemma fallback_post_result (language : pystr) (st : state) :
  let base :=
    [ (lit "caption", PStr fallback_caption);
      (lit "hashtags", PList [PStr (lit "BerlinEats"); PStr (lit "foodie"); PStr (lit "Mitte")]);
      (lit "image_url", image_for ext (image_calls st) (PStr default_prompt));
      (lit "image_prompt", PStr default_prompt);
      (lit "variant", PStr (lit "casual"));
      (lit "post_id", PStr (uuid4 ext (uuid_calls st))) ] in
  fallback_post ext language st
  = (Returned
       (if pystr_eqb language (lit "both")
        then base ++ [(lit "caption_german", PStr fallback_caption_german)]
        else base),
     tick_uuid (tick_image st)).
Proof.
  cbv zeta. unfold fallback_post, image_for.
  change (py_bool (PStr default_prompt)) with true. cbv iota.
  cbv beta iota delta [try_except generate_food_image bind call_images raise ret new_uuid].
  destruct (images_generate ext (image_calls st) _) as [| |[url|]];
    destruct (pystr_eqb language (lit "both")); reflexivity.
Qed.

End OnePost.

(** ** The two loops, post by post *)

Lemma spent_zero (st : state) : spent 0 st st.
Proof. split; [apply made_zero | lia]. Qed.

Lemma spent_trans (j k : nat) (st1 st2 st3 : state) :
  spent j st1 st2 -> spent k st2 st3 -> spent (j + k) st1 st3.
Proof.
  intros [Hm1 Hi1] [Hm2 Hi2]. split; [exact (made_trans _ _ _ _ _ Hm1 Hm2) | lia].
Qed.

Section Loops.

Context (rt : runtime) (ext : services).

Lemma build_post_spent (language : pystr) (d : Dict.dict) (st : state) :
  exists post st',
    build_post rt ext language d st = (Returned post, st') /\ spent 1 st st'.
Proof.
  pose proof (build_post_result rt ext language d st) as H. cbv zeta in H.
  do 2 eexists. split; [exact H|].
  destruct (py_bool (Dict.get_default (lit "image_prompt") (PStr []) d));
    unfold spent, made; simpl; repeat split; lia.
Qed.

Lemma fallback_post_spent (language : pystr) (st : state) :
  exists post st',
    fallback_post ext language st = (Returned post, st') /\ spent 1 st st'.
Proof.
  pose proof (fallback_post_result ext language st) as H. cbv zeta in H.
  do 2 eexists. split; [exact H|].
  unfold spent, made; simpl; repeat split; lia.
Qed.

(** The first loop builds one post from each usable item, in order. *)
Lemma clean_posts_built (language : pystr) (items : list pyval) :
  forall (posts : list Dict.dict) (st : state),
    exists new st',
      clean_posts rt ext language items posts st = (Returned (posts ++ new), st')
      /\ Forall2 (built_from rt ext language) (usable_items items) new
      /\ spent (length new) st st'.
Proof.
  induction items as [|item items IH]; intros posts st; simpl.
  - exists [], st. rewrite app_nil_r.
    split; [reflexivity | split; [constructor | apply spent_zero]].
  - unfold usable_items in *. simpl omap. unfold usable_item at 1.
    destruct item as [| | | | |l|d]; try exact (IH posts st).
    destruct (Dict.has_key (lit "caption") d); [|exact (IH posts st)].
    destruct (build_post_spent language d st) as (post & st1 & Hrun & Hspent).
    rewrite (bind_returned _ _ _ _ _ Hrun).
    destruct (IH (posts ++ [post]) st1) as (new & st' & Hrest & Hall & Hspent').
    exists (post :: new), st'. rewrite <- app_assoc in Hrest.
    split; [exact Hrest|]. split.
    + constructor; [exists st, st1; exact Hrun | exact Hall].
    + exact (spent_trans 1 _ _ _ _ Hspent Hspent').
Qed.

(** The second loop appends fallback posts. *)
Lemma pad_posts_made (language : pystr) (missing : nat) :
  forall (posts : list Dict.dict) (st : state),
    exists fallbacks st',
      pad_posts ext language missing posts st = (Returned (posts ++ fallbacks), st')
      /\ Forall (fallback_made ext language) fallbacks
      /\ length fallbacks = missing
      /\ spent missing st st'.
Proof.
  induction missing as [|k IH]; intros posts st; simpl.
  - exists [], st. rewrite app_nil_r.
    split; [reflexivity | split; [constructor | split; [reflexivity | apply spent_zero]]].
  - destruct (fallback_post_spent language st) as (post & st1 & Hrun & Hspent).
    rewrite (bind_returned _ _ _ _ _ Hrun).
    destruct (IH (posts ++ [post]) st1) as (new & st' & Hrest & Hall & Hlen & Hspent').
    exists (post :: new), st'. rewrite <- app_assoc in Hrest.
    split; [exact Hrest|]. split; [constructor; [exists st, st1; exact Hrun | exact Hall]|].
    split; [simpl; congruence | exact (spent_trans 1 _ _ _ _ Hspent Hspent')].
Qed.

(** A run of the generator that returns, taken apart. *)
Lemma generate_multiple_parts (menu_text : pystr) (num_posts : Z) (language : pystr)
    (ab_test_mode : bool) (st st' : state) (posts : list Dict.dict) :
  generate_multiple_social_media_posts rt ext menu_text num_posts language ab_test_mode st
  = (Returned posts, st') ->
  exists items cleaned fallbacks,
    generator_parts rt ext menu_text num_posts language ab_test_mode st st' posts
      items cleaned fallbacks.
Proof.
  unfold generate_multiple_social_media_posts, generator_parts, try_except, generate_body.
  set (p := build_prompt _ _ _ _).
  set (needed := actual_posts_needed _ _).
  assert (Hcall : call_completion ext p st
                  = (Returned (chat_completion ext (completion_calls st) p),
                     tick_completion st)) by reflexivity.
  rewrite (bind_returned _ _ _ _ _ Hcall).
  destruct (chat_completion ext (completion_calls st) p) as [| |[v|]];
    try (intros H; discriminate H).
  destruct v as [| | | | | |d]; try (intros H; discriminate H).
  simpl response_items.
  unfold bind at 1. unfold ret at 1. unfold bind at 1. unfold ret at 1. unfold bind at 1.
  destruct (py_iter (Dict.get_default (lit "posts") (PList []) d)) as [items|];
    [|intros H; discriminate H].
  unfold ret at 1.
  destruct (clean_posts_built language items [] (tick_completion st))
    as (cleaned & st1 & Hclean & Hbuilt & Hspent1).
  simpl in Hclean. rewrite (bind_returned _ _ _ _ _ Hclean).
  destruct (pad_posts_made language (Z.to_nat (needed - Z.of_nat (length cleaned))) cleaned st1)
    as (fallbacks & st2 & Hpad & Hfb & Hlen & Hspent2).
  rewrite (bind_returned _ _ _ _ _ Hpad). unfold ret.
  intros [= <- <-]. exists items, cleaned, fallbacks.
  split; [reflexivity|]. split; [exact Hbuilt|]. split; [exact Hfb|].
  split; [exact Hlen|]. split; [reflexivity|].
  rewrite length_app, Hlen. exact (spent_trans _ _ _ _ _ Hspent1 Hspent2).
Qed.

End Loops.

(** ** The generator and its services *)

(** X1. One run of [generate_multiple_social_media_posts] calls the chat
    completion exactly once, whatever comes of it, and leaves the
    session, the clock and the saved files alone; a run that raises has
    called neither the image service nor [uuid4]. *)
Theorem generator_calls_completion_once (rt : runtime) (ext : services) (menu_text : pystr)
    (num_posts : Z) (language : pystr) (ab_test_mode : bool) (st : state) :
  let run := generate_multiple_social_media_posts rt ext menu_text num_posts language
               ab_test_mode st in
  completion_calls (snd run) = S (completion_calls st)
  /\ sess (snd run) = sess st
  /\ clock_reads (snd run) = clock_reads st
  /\ saved_files (snd run) = saved_files st
  /\ match fst run with
     | Returned _ => True
     | Raised e =>
         (exists msg, e = ValueError msg)
         /\ image_calls (snd run) = image_calls st
         /\ uuid_calls (snd run) = uuid_calls st
     end.
Proof.
  intros run. subst run.
  destruct (generate_multiple_runs rt ext menu_text num_posts language ab_test_mode st)
    as [H Herr].
  unfold generator_run in H. cbv zeta in H, Herr.
  destruct (response_items _).
  - destruct H as (cleaned & fallbacks & st1 & st' & _ & -> & _ & _ & _ & Hmade).
    destruct Hmade as (Hs & Hc & _ & Hk & Hf). simpl.
    rewrite Hs, Hc, Hk, Hf. repeat split; reflexivity.
  - destruct (Herr eq_refl) as [msg ->]. simpl.
    repeat split; try reflexivity. exists msg; reflexivity.
Qed.

(** X2. [build_post] never raises: when the item has no image prompt the
    image service is not called, and when the image generation fails (the
    service raises, or gives no data) the post is still made, with None
    as its "image_url". *)
Theorem post_survives_image_failure (rt : runtime) (ext : services) (language : pystr)
    (d : Dict.dict) (st : state) :
  let image_prompt := Dict.get_default (lit "image_prompt") (PStr []) d in
  exists post st',
    build_post rt ext language d st = (Returned post, st')
    /\ Dict.get (lit "image_url") post
       = Some (if py_bool image_prompt then
                 match images_generate ext (image_calls st) image_prompt with
                 | ImageData (Some url) => PStr url
                 | ImageData None | ImageNoData | ImageFails => PNone
                 end
               else PNone)
    /\ image_calls st' = (if py_bool image_prompt then S (image_calls st) else image_calls st).
Proof.
  intros image_prompt.
  pose proof (build_post_result rt ext language d st) as H. cbv zeta in H.
  fold image_prompt in H.
  do 2 eexists. split; [exact H|]. unfold image_for. split.
  - destruct (_ && _); destruct (py_bool image_prompt); try reflexivity;
      destruct (images_generate ext (image_calls st) image_prompt) as [| |[url|]]; reflexivity.
  - destruct (py_bool image_prompt); reflexivity.
Qed.

Section Parts.

Context (rt : runtime) (ext : services).

Lemma fallback_made_is_fallback (language : pystr) (post : Dict.dict) :
  fallback_made ext language post -> is_fallback post.
Proof.
  intros (st0 & st1 & H).
  pose proof (fallback_post_result ext language st0) as Hr. cbv zeta in Hr.
  rewrite Hr in H. injection H as <- _.
  destruct (pystr_eqb language (lit "both")); split; reflexivity.
Qed.

Lemma built_from_copies_item (language : pystr) (d post : Dict.dict) :
  built_from rt ext language d post -> copies_item rt d post.
Proof.
  intros (st0 & st1 & H).
  pose proof (build_post_result rt ext language d st0) as Hr. cbv zeta in Hr.
  rewrite Hr in H. injection H as <- _.
  destruct (_ && _); repeat split; reflexivity.
Qed.

Lemma built_from_shape (language : pystr) (d post : Dict.dict) :
  built_from rt ext language d post ->
  post_shape post /\ (pystr_eqb language (lit "both") = false -> Dict.keys post = post_keys).
Proof.
  intros (st0 & st1 & H).
  pose proof (build_post_result rt ext language d st0) as Hr. cbv zeta in Hr.
  rewrite Hr in H. injection H as <- _.
  destruct (pystr_eqb language (lit "both")); simpl andb.
  - destruct (py_bool _); (split; [|discriminate]); [right | left]; reflexivity.
  - split; [left|intros _]; reflexivity.
Qed.

Lemma fallback_made_shape (language : pystr) (post : Dict.dict) :
  fallback_made ext language post ->
  post_shape post /\ (pystr_eqb language (lit "both") = false -> Dict.keys post = post_keys).
Proof.
  intros (st0 & st1 & H).
  pose proof (fallback_post_result ext language st0) as Hr. cbv zeta in Hr.
  rewrite Hr in H. injection H as <- _.
  destruct (pystr_eqb language (lit "both")).
  - split; [right; reflexivity | discriminate].
  - split; [left|intros _]; reflexivity.
Qed.

End Parts.

(** X4. The posts returned follow the completion: the post at index [i]
    is built from the [i]-th usable item (an object with a "caption"
    key; anything else is skipped) and takes over its caption, image
    prompt and variant, and once the usable items have run out it is a
    fallback post. *)
Theorem posts_follow_usable_items (rt : runtime) (ext : services) (menu_text : pystr)
    (num_posts : Z) (language : pystr) (ab_test_mode : bool) (st st' : state)
    (posts : list Dict.dict) :
  generate_multiple_social_media_posts rt ext menu_text num_posts language ab_test_mode st
  = (Returned posts, st') ->
  exists items,
    response_items (chat_completion ext (completion_calls st)
                      (build_prompt menu_text num_posts language ab_test_mode)) = Some items
    /\ forall i post, posts !! i = Some post ->
         match usable_items items !! i with
         | Some d => copies_item rt d post
         | None => is_fallback post
         end.
Proof.
  intros Hrun.
  destruct (generate_multiple_parts rt ext _ _ _ _ _ _ _ Hrun)
    as (items & cleaned & fallbacks & Hitems & Hbuilt & Hfb & _ & -> & _).
  exists items. split; [exact Hitems|].
  intros i post Hi.
  destruct (slice_to_take (actual_posts_needed num_posts ab_test_mode) (cleaned ++ fallbacks))
    as [m Hm].
  rewrite Hm in Hi. apply lookup_take_Some in Hi as [Hi _].
  pose proof (Forall2_length _ _ _ Hbuilt) as Hlen.
  apply lookup_app_Some in Hi as [Hi | [Hge Hi]].
  - destruct (Forall2_lookup_r _ _ _ _ _ Hbuilt Hi) as (d & Hd & Hfrom).
    rewrite Hd. exact (built_from_copies_item rt ext language d post Hfrom).
  - rewrite (lookup_ge_None_2 (usable_items items) i) by lia.
    apply (fallback_made_is_fallback ext language).
    exact (proj1 (Forall_lookup _ _) Hfb _ _ Hi).
Qed.

Lemma posts_follow_usable_items_witness :
  Runs.generate Runs.two_tags 2 false
  = (Returned (Runs.posts_of (Runs.generate Runs.two_tags 2 false)),
     snd (Runs.generate Runs.two_tags 2 false))
  /\ exists items,
       response_items Runs.two_tags = Some items
       /\ forall i post,
            Runs.posts_of (Runs.generate Runs.two_tags 2 false) !! i = Some post ->
            match usable_items items !! i with
            | Some d => copies_item Sample.ascii_runtime d post
            | None => is_fallback post
            end.
Proof.
  assert (H : Runs.generate Runs.two_tags 2 false
              = (Returned (Runs.posts_of (Runs.generate Runs.two_tags 2 false)),
                 snd (Runs.generate Runs.two_tags 2 false))) by (vm_compute; reflexivity).
  split; [exact H|].
  exact (posts_follow_usable_items _ _ _ _ _ _ _ _ _ H).
Defined.

(** X3. When the completion parses to an object but none of the items
    under "posts" is an object with a caption (the list is empty or
    missing, holds strings or numbers, or "posts" is itself a string or
    an object), the generator does not fail: it returns the number of
    posts needed, all of them fallback posts. *)
Theorem only_fallbacks_without_usable_items (rt : runtime) (ext : services)
    (menu_text : pystr) (num_posts : Z) (language : pystr) (ab_test_mode : bool) (st : state)
    (items : list pyval) :
  response_items (chat_completion ext (completion_calls st)
                    (build_prompt menu_text num_posts language ab_test_mode)) = Some items ->
  usable_items items = [] ->
  exists posts st',
    generate_multiple_social_media_posts rt ext menu_text num_posts language ab_test_mode st
    = (Returned posts, st')
    /\ Forall is_fallback posts
    /\ length posts = Z.to_nat (actual_posts_needed num_posts ab_test_mode).
Proof.
  intros Hitems Hnone.
  destruct (generate_multiple_runs rt ext menu_text num_posts language ab_test_mode st)
    as [H _].
  unfold generator_run in H. cbv zeta in H. rewrite Hitems in H.
  destruct H as (cleaned0 & fallbacks0 & st1 & st' & _ & Hrun & _).
  destruct (generate_multiple_parts rt ext _ _ _ _ _ _ _ Hrun)
    as (items' & cleaned & fallbacks & Hitems' & Hbuilt & Hfb & Hlen & Hposts & _).
  rewrite Hitems in Hitems'. injection Hitems' as <-.
  rewrite Hnone in Hbuilt. apply Forall2_nil_inv_l in Hbuilt as ->.
  simpl in Hposts, Hlen. rewrite Z.sub_0_r in Hlen.
  do 2 eexists. split; [exact Hrun|].
  rewrite Hposts. unfold slice_to.
  destruct (0 <=? actual_posts_needed num_posts ab_test_mode)%Z eqn:Hsign.
  - rewrite <- Hlen, firstn_all. split; [|reflexivity].
    eapply Forall_impl; [exact Hfb|]. apply fallback_made_is_fallback.
  - apply Z.leb_gt in Hsign. destruct fallbacks; [|simpl in Hlen; lia].
    split; [constructor | simpl; lia].
Qed.

Lemma only_fallbacks_without_usable_items_witness :
  (response_items (chat_completion (Sample.scripted (ContentText (Some (PDict []))))
                     (completion_calls Sample.initial)
                     (build_prompt (lit "Currywurst 4.50") 2 (lit "both") true)) = Some []
   /\ usable_items [] = [])
  /\ exists posts st',
       generate_multiple_social_media_posts Sample.ascii_runtime
         (Sample.scripted (ContentText (Some (PDict [])))) (lit "Currywurst 4.50") 2
         (lit "both") true Sample.initial = (Returned posts, st')
       /\ Forall is_fallback posts
       /\ length posts = Z.to_nat (actual_posts_needed 2 true).
Proof.
  assert (H1 : response_items
                 (chat_completion (Sample.scripted (ContentText (Some (PDict []))))
                    (completion_calls Sample.initial)
                    (build_prompt (lit "Currywurst 4.50") 2 (lit "both") true)) = Some [])
    by reflexivity.
  assert (H2 : usable_items [] = []) by reflexivity.
  split; [split; [exact H1 | exact H2]|].
  exact (only_fallbacks_without_usable_items Sample.ascii_runtime _ _ _ _ _ _ _ H1 H2).
Defined.

(** X5. The generator makes a post, drawing an identifier, for every
    usable item of the completion, also for those beyond the number
    needed that it cuts off afterwards: a run that returns has made as
    many posts as the larger of the two numbers, and has called the
    image service at most once for each. *)
Theorem posts_made_beyond_needed (rt : runtime) (ext : services) (menu_text : pystr)
    (num_posts : Z) (language : pystr) (ab_test_mode : bool) (st st' : state)
    (posts : list Dict.dict) :
  generate_multiple_social_media_posts rt ext menu_text num_posts language ab_test_mode st
  = (Returned posts, st') ->
  exists items,
    response_items (chat_completion ext (completion_calls st)
                      (build_prompt menu_text num_posts language ab_test_mode)) = Some items
    /\ let made_posts := Nat.max (length (usable_items items))
                           (Z.to_nat (actual_posts_needed num_posts ab_test_mode)) in
       uuid_calls st' = (uuid_calls st + made_posts)%nat
       /\ (image_calls st <= image_calls st' <= image_calls st + made_posts)%nat
       /\ (length posts <= made_posts)%nat.
Proof.
  intros Hrun.
  destruct (generate_multiple_parts rt ext _ _ _ _ _ _ _ Hrun)
    as (items & cleaned & fallbacks & Hitems & Hbuilt & _ & Hlen & Hposts & Hmade & Himg).
  exists items. split; [exact Hitems|]. cbv zeta.
  pose proof (Forall2_length _ _ _ Hbuilt) as Hc.
  assert (Hcount : length (cleaned ++ fallbacks)
                   = Nat.max (length (usable_items items))
                       (Z.to_nat (actual_posts_needed num_posts ab_test_mode))).
  { rewrite length_app, Hlen, Hc. lia. }
  rewrite <- Hcount. destruct Hmade as (_ & _ & Hu & _).
  simpl in Hu, Himg. split; [exact Hu|]. split; [exact Himg|].
  rewrite Hposts. destruct (slice_to_take (actual_posts_needed num_posts ab_test_mode)
                              (cleaned ++ fallbacks)) as [m ->].
  rewrite length_take. lia.
Qed.

Lemma posts_made_beyond_needed_witness :
  Runs.generate Runs.two_tags 2 true
  = (Returned (Runs.posts_of (Runs.generate Runs.two_tags 2 true)),
     snd (Runs.generate Runs.two_tags 2 true))
  /\ exists items,
       response_items Runs.two_tags = Some items
       /\ uuid_calls (snd (Runs.generate Runs.two_tags 2 true))
          = (uuid_calls Sample.initial
             + Nat.max (length (usable_items items)) (Z.to_nat (actual_posts_needed 2 true)))%nat.
Proof.
  assert (H : Runs.generate Runs.two_tags 2 true
              = (Returned (Runs.posts_of (Runs.generate Runs.two_tags 2 true)),
                 snd (Runs.generate Runs.two_tags 2 true))) by (vm_compute; reflexivity).
  split; [exact H|].
  destruct (posts_made_beyond_needed _ _ _ _ _ _ _ _ _ H) as (items & Hitems & Hu & _).
  exists items. split; [exact Hitems | exact Hu].
Defined.

(** X6. Every post returned has the six keys "caption", "hashtags",
    "image_url", "image_prompt", "variant" and "post_id", in this order,
    followed by "caption_german" or by nothing; unless the language asked
    for is "both", no post has a "caption_german". *)
Theorem post_records_keys (rt : runtime) (ext : services) (menu_text : pystr)
    (num_posts : Z) (language : pystr) (ab_test_mode : bool) (st st' : state)
    (posts : list Dict.dict) :
  generate_multiple_social_media_posts rt ext menu_text num_posts language ab_test_mode st
  = (Returned posts, st') ->
  Forall post_shape posts
  /\ (language <> lit "both" -> Forall (fun post => Dict.keys post = post_keys) posts).
Proof.
  intros Hrun.
  destruct (generate_multiple_parts rt ext _ _ _ _ _ _ _ Hrun)
    as (items & cleaned & fallbacks & _ & Hbuilt & Hfb & _ & -> & _).
  destruct (slice_to_take (actual_posts_needed num_posts ab_test_mode) (cleaned ++ fallbacks))
    as [m ->].
  assert (Hall : Forall (fun post => post_shape post
                           /\ (pystr_eqb language (lit "both") = false ->
                               Dict.keys post = post_keys)) (cleaned ++ fallbacks)).
  { apply Forall_app. split.
    - apply Forall_lookup. intros i post Hi.
      destruct (Forall2_lookup_r _ _ _ _ _ Hbuilt Hi) as (d & _ & Hfrom).
      exact (built_from_shape rt ext language d post Hfrom).
    - eapply Forall_impl; [exact Hfb|]. apply fallback_made_shape. }
  split.
  - apply Forall_take. eapply Forall_impl; [exact Hall|]. intros post [H _]; exact H.
  - intros Hlang. apply pystr_eqb_neq in Hlang.
    apply Forall_take. eapply Forall_impl; [exact Hall|]. intros post [_ H]; exact (H Hlang).
Qed.

Lemma post_records_keys_witness :
  Runs.generate Runs.two_tags 2 false
  = (Returned (Runs.posts_of (Runs.generate Runs.two_tags 2 false)),
     snd (Runs.generate Runs.two_tags 2 false))
  /\ Forall post_shape (Runs.posts_of (Runs.generate Runs.two_tags 2 false))
  /\ (lit "english" <> lit "both" ->
      Forall (fun post => Dict.keys post = post_keys)
        (Runs.posts_of (Runs.generate Runs.two_tags 2 false))).
Proof.
  assert (H : Runs.generate Runs.two_tags 2 false
              = (Returned (Runs.posts_of (Runs.generate Runs.two_tags 2 false)),
                 snd (Runs.generate Runs.two_tags 2 false))) by (vm_compute; reflexivity).
  split; [exact H|].
  exact (post_records_keys _ _ _ _ _ _ _ _ _ H).
Defined.

(** ** Hashtags, case by case *)

Section HashtagCases.

Context (rt : runtime).

Lemma clean_tags_dropped (l : list pyval) :
  Forall (dropped_tag rt) l -> clean_tags rt l = [].
Proof.
  induction 1 as [|tag l [Hfalse | Hempty] _ IH]; simpl; [reflexivity| |].
  - rewrite Hfalse. exact IH.
  - rewrite Hempty. simpl. destruct (py_bool tag); exact IH.
Qed.

(** The padding tags are no locality tags. *)
Lemma has_berlin_tag_app (tags added : list pystr) :
  Forall (fun t => t ∈ [lit "foodie"; lit "delicious"; lit "restaurant"]) added ->
  has_berlin_tag rt (tags ++ added) = has_berlin_tag rt tags.
Proof.
  intros Hadded. unfold has_berlin_tag. rewrite existsb_app.
  assert (Hnone : existsb (fun tag => str_in (py_lower rt tag) berlin_tags) added = false).
  { induction Hadded as [|t added Ht _ IH]; [reflexivity|]. cbn [existsb]. rewrite IH.
    repeat (apply elem_of_cons in Ht as [-> | Ht]; [reflexivity|]).
    apply elem_of_nil in Ht. contradiction. }
  rewrite Hnone. apply orb_false_r.
Qed.

Lemma has_berlin_tag_snoc (tags : list pystr) :
  has_berlin_tag rt (tags ++ [lit "BerlinEats"]) = true.
Proof. unfold has_berlin_tag. rewrite existsb_app. apply orb_true_r. Qed.

Lemma has_berlin_tag_insert (tags : list pystr) (i : nat) :
  (i < length tags)%nat -> has_berlin_tag rt (<[i := lit "BerlinEats"]> tags) = true.
Proof.
  intros Hi. unfold has_berlin_tag. apply existsb_exists.
  exists (lit "BerlinEats"). split; [|reflexivity].
  apply list_elem_of_In, list_elem_of_lookup. exists i.
  apply list_lookup_insert_eq. exact Hi.
Qed.

(** X8. The hashtags of a post hold a locality tag exactly when at most
    three raw hashtags survive the cleaning, or one of the first three
    that survive is a locality tag: a locality tag in fourth place or
    later passes the check and is cut off, and "BerlinEats" written over
    the last of more than three tags is cut off with it. *)
Theorem locality_tag_iff_within_three (l : list pyval) :
  has_berlin_tag rt (normalize_hashtags rt (PList l))
  = (length (clean_tags rt l) <=? 3)%nat || has_berlin_tag rt (take 3 (clean_tags rt l)).
Proof.
  unfold normalize_hashtags.
  destruct (fill_hashtags_prefix rt (3 - length (take 3 (ensure_berlin_tag rt (clean_tags rt l))))
              (take 3 (ensure_berlin_tag rt (clean_tags rt l)))) as (added & -> & Hadded).
  rewrite (has_berlin_tag_app _ _ Hadded).
  set (c := clean_tags rt l). unfold ensure_berlin_tag, set_last.
  destruct (Nat.leb_spec (length c) 3) as [Hle | Hgt]; simpl orb.
  - destruct (has_berlin_tag rt c) eqn:Hb; simpl negb; cbv iota.
    + rewrite firstn_all2 by exact Hle. exact Hb.
    + destruct (Nat.leb_spec 3 (length c)) as [Hge | Hlt].
      * rewrite firstn_all2 by (rewrite length_insert; exact Hle).
        apply has_berlin_tag_insert. lia.
      * rewrite firstn_all2 by (rewrite length_app; simpl; lia).
        apply has_berlin_tag_snoc.
  - destruct (has_berlin_tag rt c) eqn:Hb; simpl negb; cbv iota; [reflexivity|].
    destruct (Nat.leb_spec 3 (length c)) as [Hge | Hlt]; [|lia].
    rewrite take_insert_ge by lia. reflexivity.
Qed.

(** X7. An item whose "hashtags" entry is missing, is not a list, or is
    a list in which every entry is falsy or blank once stripped, gets the
    hashtags BerlinEats, foodie and delicious. *)
Theorem default_hashtags_when_none_kept (d : Dict.dict) :
  no_tag_kept rt d ->
  normalize_hashtags rt (Dict.get_default (lit "hashtags") (PList []) d)
  = [lit "BerlinEats"; lit "foodie"; lit "delicious"].
Proof.
  unfold no_tag_kept, Dict.get_default.
  destruct (Dict.get (lit "hashtags") d) as [[| | | | |l|]|]; intros H; try reflexivity.
  unfold normalize_hashtags. rewrite (clean_tags_dropped l H). reflexivity.
Qed.

End HashtagCases.

Lemma default_hashtags_when_none_kept_witness :
  no_tag_kept Sample.ascii_runtime
    [(lit "caption", PStr (lit "Lunch")); (lit "hashtags", PList [PStr (lit " ## "); PInt 0])]
  /\ normalize_hashtags Sample.ascii_runtime
       (Dict.get_default (lit "hashtags") (PList [])
          [(lit "caption", PStr (lit "Lunch"));
           (lit "hashtags", PList [PStr (lit " ## "); PInt 0])])
     = [lit "BerlinEats"; lit "foodie"; lit "delicious"].
Proof.
  assert (H : no_tag_kept Sample.ascii_runtime
                [(lit "caption", PStr (lit "Lunch"));
                 (lit "hashtags", PList [PStr (lit " ## "); PInt 0])]).
  { apply Forall_cons_2; [right; reflexivity|].
    apply Forall_cons_2; [left; reflexivity | apply Forall_nil_2]. }
  split; [exact H|].
  exact (default_hashtags_when_none_kept _ _ H).
Defined.

(** ** The padding of hashtags *)

Ltac settle_tags :=
  repeat match goal with
         | H : false = true |- _ => discriminate H
         | H : pystr_eqb (lit _) (lit _) = true |- _ => vm_compute in H; discriminate H
         | H : str_in (lit _) _ = true |- _ => vm_compute in H; discriminate H
         | H : (_ || _) = true |- _ => apply orb_true_iff in H as [H | H]
         | H : pystr_eqb (lit _) ?x = true |- _ => apply pystr_eqb_eq in H; subst x
         end.

Section Padding.

Context (rt : runtime).

(** A locality tag, "foodie" and "delicious" are three tags. *)
Lemma three_lowered_tags (tags : list pystr) :
  (length tags <= 2)%nat ->
  has_berlin_tag rt tags = true ->
  str_in (lit "foodie") (map (py_lower rt) tags) = true ->
  str_in (lit "delicious") (map (py_lower rt) tags) = true ->
  False.
Proof.
  unfold has_berlin_tag.
  destruct tags as [|a [|b [|c tags]]]; simpl length; intros Hlen; try lia;
    cbn [existsb map str_in].
  - discriminate.
  - generalize (py_lower rt a). intros la H1 H2 H3. settle_tags.
  - generalize (py_lower rt a) (py_lower rt b). intros la lb H1 H2 H3. settle_tags.
Qed.

Lemma has_berlin_tag_keep (tags : list pystr) (t : pystr) :
  has_berlin_tag rt tags = true -> has_berlin_tag rt (tags ++ [t]) = true.
Proof. unfold has_berlin_tag. rewrite existsb_app. intros ->. reflexivity. Qed.

(** With a locality tag among them, the tags are padded with "foodie"
    and "delicious" only. *)
Lemma fill_hashtags_two_fillers (k : nat) :
  forall tags : list pystr,
    (length tags + k <= 3)%nat ->
    ((0 < k)%nat -> has_berlin_tag rt tags = true) ->
    exists added,
      fill_hashtags rt k tags = tags ++ added
      /\ Forall (fun t => t ∈ [lit "foodie"; lit "delicious"]) added.
Proof.
  induction k as [|k IH]; intros tags Hlen Hb; simpl.
  - exists []. split; [symmetry; apply app_nil_r | constructor].
  - specialize (Hb ltac:(lia)).
    destruct (str_in (lit "foodie") (map (py_lower rt) tags)) eqn:Hf; simpl negb; cbv iota.
    + destruct (str_in (lit "delicious") (map (py_lower rt) tags)) eqn:Hd; simpl negb; cbv iota.
      * destruct (three_lowered_tags tags ltac:(lia) Hb Hf Hd).
      * destruct (IH (tags ++ [lit "delicious"])) as (added & -> & Hadded).
        { rewrite length_app; simpl; lia. }
        { intros _. apply has_berlin_tag_keep. exact Hb. }
        exists (lit "delicious" :: added). rewrite <- app_assoc.
        split; [reflexivity | constructor; [set_solver | exact Hadded]].
    + destruct (IH (tags ++ [lit "foodie"])) as (added & -> & Hadded).
      { rewrite length_app; simpl; lia. }
      { intros _. apply has_berlin_tag_keep. exact Hb. }
      exists (lit "foodie" :: added). rewrite <- app_assoc.
      split; [reflexivity | constructor; [set_solver | exact Hadded]].
Qed.

Lemma ensure_berlin_tag_short (c : list pystr) :
  (length (ensure_berlin_tag rt c) < 3)%nat -> has_berlin_tag rt (ensure_berlin_tag rt c) = true.
Proof.
  unfold ensure_berlin_tag, set_last.
  destruct (has_berlin_tag rt c) eqn:Hb; simpl negb; cbv iota; [intros _; exact Hb|].
  destruct (Nat.leb_spec 3 (length c)) as [Hge | Hlt].
  - rewrite length_insert. lia.
  - intros _. apply has_berlin_tag_snoc.
Qed.

Lemma ensure_berlin_tag_elem (c : list pystr) (t : pystr) :
  t ∈ ensure_berlin_tag rt c -> t = lit "BerlinEats" \/ t ∈ c.
Proof.
  unfold ensure_berlin_tag, set_last.
  destruct (negb _); [|right; assumption].
  destruct (3 <=? length c)%nat.
  - intros Ht. apply list_elem_of_lookup in Ht as [j Hj].
    apply list_lookup_insert_Some in Hj as [(_ & <- & _) | [_ Hj]]; [left; reflexivity|].
    right. apply list_elem_of_lookup. exists j; exact Hj.
  - intros Ht. apply elem_of_app in Ht as [Ht | Ht]; [right; exact Ht|].
    left. apply list_elem_of_singleton in Ht. exact Ht.
Qed.

(** X9. The padding loop appends "foodie" and "delicious" only: for a
    list of raw hashtags, the hashtags of the post are the first three of
    the cleaned tags with the locality tag ensured, followed by padding
    tags that are each "foodie" or "delicious"; the third branch of the
    loop, which appends "restaurant", is never taken, so "restaurant" is
    a hashtag of the post only when the completion gave it. *)
Theorem padding_appends_foodie_delicious_only (l : list pyval) :
  exists added,
    normalize_hashtags rt (PList l)
    = take 3 (ensure_berlin_tag rt (clean_tags rt l)) ++ added
    /\ Forall (fun t => t = lit "foodie" \/ t = lit "delicious") added
    /\ (length added <= 2)%nat
    /\ (lit "restaurant" ∈ normalize_hashtags rt (PList l) ->
        lit "restaurant" ∈ clean_tags rt l).
Proof.
  unfold normalize_hashtags.
  set (kept := take 3 (ensure_berlin_tag rt (clean_tags rt l))).
  assert (Hens : (1 <= length (ensure_berlin_tag rt (clean_tags rt l)))%nat).
  { unfold ensure_berlin_tag, set_last.
    destruct (has_berlin_tag rt (clean_tags rt l)) eqn:Hb; simpl negb; cbv iota.
    - destruct (clean_tags rt l) as [|t c]; [discriminate Hb | simpl; lia].
    - destruct (Nat.leb_spec 3 (length (clean_tags rt l))).
      + rewrite length_insert. lia.
      + rewrite length_app. simpl. lia. }
  assert (Hkept : (1 <= length kept <= 3)%nat).
  { subst kept. rewrite length_take. lia. }
  destruct (fill_hashtags_two_fillers (3 - length kept) kept) as (added & Hfill & Hadded).
  - lia.
  - intros Hshort. subst kept. rewrite length_take in Hshort.
    rewrite firstn_all2 by lia. apply ensure_berlin_tag_short. lia.
  - exists added. split; [exact Hfill|]. split.
    + eapply Forall_impl; [exact Hadded|]. intros t Ht.
      apply elem_of_cons in Ht as [-> | Ht]; [left; reflexivity|].
      apply list_elem_of_singleton in Ht. right. exact Ht.
    + split.
      * pose proof (fill_hashtags_length rt (3 - length kept) kept) as Hlen.
        rewrite Hfill, length_app in Hlen. lia.
      * intros Hin. rewrite Hfill in Hin. apply elem_of_app in Hin as [Hin | Hin].
        -- apply subseteq_take in Hin.
           apply ensure_berlin_tag_elem in Hin as [Heq | Hin]; [discriminate Heq | exact Hin].
        -- rewrite Forall_forall in Hadded. specialize (Hadded _ Hin).
           repeat (apply elem_of_cons in Hadded as [Heq | Hadded]; [discriminate Heq|]).
           apply elem_of_nil in Hadded. contradiction.
Qed.

End Padding.

(** ** File names *)

Lemma rsplit1_last_part (sep : N) (stem part : pystr) :
  existsb (N.eqb sep) part = false ->
  rsplit1 sep (stem ++ sep :: part) = Some (stem, part).
Proof.
  intros Hpart. apply rsplit1_none in Hpart.
  induction stem as [|c stem IH]; simpl.
  - rewrite Hpart, N.eqb_refl. reflexivity.
  - rewrite IH. reflexivity.
Qed.

(** X10. [allowed_file] looks at the part after the last dot only: a
    name without a dot is refused, and a name that ends in a dot and a
    dot-free extension is allowed exactly when that extension, in lower
    case, is one of png, jpg, jpeg, gif and webp, whatever comes before
    (so "menu.png.exe" is refused and "menu.exe.PNG" is allowed). *)
Theorem allowed_file_by_last_extension (rt : runtime) (stem part : pystr) :
  existsb (N.eqb 46) part = false ->
  allowed_file rt part = false
  /\ allowed_file rt (stem ++ lit "." ++ part)
     = str_in (py_lower rt part) ALLOWED_EXTENSIONS.
Proof.
  intros Hpart. split.
  - unfold allowed_file. rewrite Hpart. reflexivity.
  - rewrite allowed_file_extension. unfold extension.
    change (stem ++ lit "." ++ part) with (stem ++ 46 :: part).
    rewrite (rsplit1_last_part 46 stem part Hpart). reflexivity.
Qed.

Lemma allowed_file_by_last_extension_witness :
  existsb (N.eqb 46) (lit "PNG") = false
  /\ allowed_file Sample.ascii_runtime (lit "PNG") = false
  /\ allowed_file Sample.ascii_runtime (lit "menu.exe" ++ lit "." ++ lit "PNG")
     = str_in (py_lower Sample.ascii_runtime (lit "PNG")) ALLOWED_EXTENSIONS.
Proof.
  assert (H : existsb (N.eqb 46) (lit "PNG") = false) by reflexivity.
  split; [exact H|].
  exact (allowed_file_by_last_extension Sample.ascii_runtime (lit "menu.exe") (lit "PNG") H).
Defined.

(** ** Uploads and the session *)

Lemma dict_get_set_eq (k : pystr) (v : pyval) (d : Dict.dict) :
  Dict.get k (Dict.set k v d) = Some v.
Proof.
  induction d as [|[k0 v0] d IH]; simpl.
  - rewrite pystr_eqb_refl; reflexivity.
  - destruct (pystr_eqb k k0) eqn:Hk; simpl; rewrite Hk; [reflexivity | exact IH].
Qed.

(** What an accepted upload leaves in the state. *)
Lemma upload_image_accepted (rt : runtime) (ext : services) (req : upload_request)
    (st : state) :
  upload_accepts rt req = true ->
  exists file ext_part,
    files_image req = Some file
    /\ extension (filename file) = Some ext_part
    /\ py_lower rt ext_part ∈ ALLOWED_EXTENSIONS
    /\ let name := uuid4 ext (uuid_calls st) ++ lit "." ++ py_lower rt ext_part in
       let url := image_route name in
       upload_image rt ext req st
       = (Returned (Jsonify [ (lit "success", PBool true); (lit "filename", PStr name);
                              (lit "url", PStr url) ] 200),
          set_sess
            {| current_posts := set_post_image (post_index req) url <$> current_posts (sess st);
               current_menu_text := current_menu_text (sess st);
               current_language := current_language (sess st);
               uploaded_images :=
                 Some (<[str_of_Z (Z.of_nat (post_index req)) := name]>
                         (default ∅ (uploaded_images (sess st))));
               flashes := flashes (sess st) |}
            (add_saved_file (UPLOAD_FOLDER ++ lit "/" ++ name, filename file) (tick_uuid st))).
Proof.
  unfold upload_accepts, upload_image. intros Hacc.
  destruct (files_image req) as [file|]; [|discriminate].
  apply andb_true_iff in Hacc as [Hname Hext].
  destruct (extension (filename file)) as [ext_part|] eqn:Hpart; [|discriminate].
  exists file, ext_part. split; [reflexivity|]. split; [exact Hpart|].
  split; [apply str_in_elem; exact Hext|].
  unfold file_bool.
  change (py_bool (PStr (filename file))) with (negb (pystr_eqb (filename file) [])).
  rewrite allowed_file_extension, Hpart, Hext.
  destruct (pystr_eqb (filename file) []); [discriminate|]. cbn [negb andb].
  cbv beta iota zeta delta [bind new_uuid modify ret]. cbn [from_option id].
  destruct st as [[posts menu lang imgs fl] cc ic uc cr sf]. simpl.
  destruct posts; reflexivity.
Qed.

(** X11. A file is never saved under the name it was uploaded with: the
    path of an accepted upload is the upload folder, a slash, the
    identifier drawn from [uuid4], a dot and one of the five allowed
    extensions in lower case; a refused upload saves nothing. *)
Theorem upload_saved_under_fresh_name (rt : runtime) (ext : services) (req : upload_request)
    (st : state) :
  let st' := snd (upload_image rt ext req st) in
  if upload_accepts rt req then
    exists file allowed,
      files_image req = Some file
      /\ allowed ∈ ALLOWED_EXTENSIONS
      /\ saved_files st'
         = saved_files st
           ++ [(lit "/tmp/uploads/" ++ uuid4 ext (uuid_calls st) ++ lit "." ++ allowed,
                filename file)]
  else saved_files st' = saved_files st.
Proof.
  intros st'. subst st'.
  destruct (upload_accepts rt req) eqn:Hacc.
  - destruct (upload_image_accepted rt ext req st Hacc)
      as (file & ext_part & Hfile & _ & Hin & Hrun).
    cbv zeta in Hrun. rewrite Hrun.
    exists file, (py_lower rt ext_part). split; [exact Hfile|]. split; [exact Hin|].
    reflexivity.
  - pose proof (upload_image_runs rt ext req st) as H. cbv zeta in H.
    rewrite Hacc in H. destruct H as [_ ->]. reflexivity.
Qed.

(** X12. An accepted upload for [post_index] changes, among the posts
    of the session, the "image_url" of the post at that index and nothing
    else: the other posts and the other keys of that post stay as they
    are, and an index beyond the list changes no post. *)
Theorem upload_changes_one_image (rt : runtime) (ext : services) (req : upload_request)
    (st : state) (posts : list Dict.dict) :
  upload_accepts rt req = true ->
  current_posts (sess st) = Some posts ->
  exists url posts',
    current_posts (sess (snd (upload_image rt ext req st))) = Some posts'
    /\ length posts' = length posts
    /\ (forall j, j <> post_index req -> posts' !! j = posts !! j)
    /\ (forall post, posts !! post_index req = Some post ->
          exists post',
            posts' !! post_index req = Some post'
            /\ Dict.get (lit "image_url") post' = Some (PStr url)
            /\ forall k, k <> lit "image_url" -> Dict.get k post' = Dict.get k post)
    /\ ((length posts <= post_index req)%nat -> posts' = posts).
Proof.
  intros Hacc Hposts.
  destruct (upload_image_accepted rt ext req st Hacc) as (file & ext_part & _ & _ & _ & Hrun).
  cbv zeta in Hrun. rewrite Hrun, Hposts. simpl.
  eexists. eexists. split; [reflexivity|].
  unfold set_post_image.
  destruct (Nat.ltb_spec (post_index req) (length posts)) as [Hlt | Hge].
  - destruct (lookup_lt_is_Some_2 posts _ Hlt) as [post Hpost]. rewrite Hpost.
    split; [apply length_insert|]. split.
    + intros j Hj. apply list_lookup_insert_ne. congruence.
    + split; [|lia]. intros post0 Hpost0. injection Hpost0 as <-.
      eexists. split; [apply list_lookup_insert_eq; exact Hlt|].
      split; [apply dict_get_set_eq|].
      intros k Hk. apply dict_get_set_ne. apply pystr_eqb_neq. exact Hk.
  - split; [reflexivity|]. split; [reflexivity|]. split; [|reflexivity].
    intros post Hpost. apply lookup_lt_Some in Hpost. lia.
Qed.

Lemma upload_changes_one_image_witness :
  (upload_accepts Sample.ascii_runtime Forms.png_upload = true
   /\ current_posts (sess Served.served) = Some Served.served_posts)
  /\ exists posts',
       current_posts
         (sess (snd (upload_image Sample.ascii_runtime (Sample.scripted Runs.two_tags)
                       Forms.png_upload Served.served))) = Some posts'
       /\ length posts' = length Served.served_posts
       /\ (forall j, j <> post_index Forms.png_upload -> posts' !! j = Served.served_posts !! j).
Proof.
  assert (Hacc : upload_accepts Sample.ascii_runtime Forms.png_upload = true)
    by (vm_compute; reflexivity).
  assert (Hposts : current_posts (sess Served.served) = Some Served.served_posts)
    by (vm_compute; reflexivity).
  split; [split; [exact Hacc | exact Hposts]|].
  destruct (upload_changes_one_image Sample.ascii_runtime (Sample.scripted Runs.two_tags)
              Forms.png_upload Served.served Served.served_posts Hacc Hposts)
    as (url & posts' & H1 & H2 & H3 & _).
  exists posts'. split; [exact H1 | split; [exact H2 | exact H3]].
Defined.

(** ** Uploads, generation and export, one after the other *)

Lemma saved_at_last (path content : pystr) (files : list (pystr * pystr)) :
  saved_at path (files ++ [(path, content)]) = Some content.
Proof.
  induction files as [|[p c] files IH]; simpl.
  - rewrite pystr_eqb_refl. reflexivity.
  - rewrite IH. reflexivity.
Qed.

Lemma path_join_upload_folder (name : pystr) :
  head name <> Some 47 -> path_join UPLOAD_FOLDER name = lit "/tmp/uploads/" ++ name.
Proof.
  intros Hhead. unfold path_join.
  destruct name as [|c name]; [reflexivity|].
  destruct (N.eq_dec c 47) as [-> | Hc]; [contradiction Hhead; reflexivity|].
  assert (Hjoin : match last UPLOAD_FOLDER with
                  | None => c :: name
                  | Some 47 => UPLOAD_FOLDER ++ c :: name
                  | Some _ => UPLOAD_FOLDER ++ lit "/" ++ c :: name
                  end = lit "/tmp/uploads/" ++ c :: name) by reflexivity.
  rewrite <- Hjoin.
  destruct c as [|p]; [reflexivity|].
  do 6 (destruct p as [p|p|]; try reflexivity). contradiction Hc; reflexivity.
Qed.

(** X13. Upload, then serve: after an accepted upload, the URL that
    [upload_image] answers with is "/uploaded_image/" followed by the
    name it saved the file under, and [uploaded_image] called with that
    name sends the file just uploaded from the upload folder. *)
Theorem uploaded_file_is_served (rt : runtime) (ext : services) (req : upload_request)
    (st : state) :
  upload_accepts rt req = true ->
  head (uuid4 ext (uuid_calls st)) <> Some 47 ->
  exists file name body st',
    files_image req = Some file
    /\ upload_image rt ext req st = (Returned (Jsonify body 200), st')
    /\ Dict.get (lit "filename") body = Some (PStr name)
    /\ Dict.get (lit "url") body = Some (PStr (lit "/uploaded_image/" ++ name))
    /\ uploaded_image name st'
       = Some (SendFile (lit "/tmp/uploads/" ++ name) (filename file)).
Proof.
  intros Hacc Hhead.
  destruct (upload_image_accepted rt ext req st Hacc)
    as (file & ext_part & Hfile & _ & _ & Hrun).
  cbv zeta in Hrun.
  set (name := uuid4 ext (uuid_calls st) ++ lit "." ++ py_lower rt ext_part) in *.
  exists file, name. do 2 eexists. split; [exact Hfile|]. split; [exact Hrun|].
  split; [reflexivity|]. split; [reflexivity|].
  unfold uploaded_image. rewrite path_join_upload_folder.
  - simpl saved_files.
    change (UPLOAD_FOLDER ++ lit "/" ++ name) with (lit "/tmp/uploads/" ++ name).
    rewrite saved_at_last. reflexivity.
  - subst name. destruct (uuid4 ext (uuid_calls st)) as [|c u]; [discriminate | exact Hhead].
Qed.

Lemma uploaded_file_is_served_witness :
  (upload_accepts Sample.ascii_runtime Forms.png_upload = true
   /\ head (uuid4 (Sample.scripted Runs.two_tags) (uuid_calls Served.served)) <> Some 47)
  /\ exists file name body st',
       files_image Forms.png_upload = Some file
       /\ upload_image Sample.ascii_runtime (Sample.scripted Runs.two_tags) Forms.png_upload
            Served.served = (Returned (Jsonify body 200), st')
       /\ Dict.get (lit "filename") body = Some (PStr name)
       /\ Dict.get (lit "url") body = Some (PStr (lit "/uploaded_image/" ++ name))
       /\ uploaded_image name st'
          = Some (SendFile (lit "/tmp/uploads/" ++ name) (filename file)).
Proof.
  assert (Hacc : upload_accepts Sample.ascii_runtime Forms.png_upload = true)
    by (vm_compute; reflexivity).
  assert (Hhead : head (uuid4 (Sample.scripted Runs.two_tags) (uuid_calls Served.served))
                  <> Some 47) by (vm_compute; discriminate).
  split; [split; [exact Hacc | exact Hhead]|].
  exact (uploaded_file_is_served _ _ _ _ Hacc Hhead).
Defined.

(** X14. An image uploaded for index [i] stays in the session and wins
    over the generated one: whenever a later request to /generate goes
    through, the post it stores at index [i] has the uploaded image as
    its "image_url". *)
Theorem uploaded_image_replaces_generated (rt : runtime) (ext : services)
    (form : generate_form) (st : state) (imgs : gmap pystr pystr) (i : nat) (name : pystr) :
  uploaded_images (sess st) = Some imgs ->
  imgs !! str_of_Z (Z.of_nat i) = Some name ->
  generation_fails rt ext form st = false ->
  exists posts,
    current_posts (sess (snd (generate_posts rt ext form st))) = Some posts
    /\ uploaded_images (sess (snd (generate_posts rt ext form st))) = Some imgs
    /\ forall post, posts !! i = Some post ->
         Dict.get (lit "image_url") post = Some (PStr (lit "/uploaded_image/" ++ name)).
Proof.
  intros Himgs Hname Hgoes.
  pose proof (generate_posts_runs rt ext form st) as H. rewrite Hgoes in H.
  destruct H as (n & posts & st1 & _ & _ & _ & Hrun). cbv zeta in Hrun.
  destruct Hrun as [-> Hs]. simpl. rewrite Hs, Himgs. simpl.
  eexists. split; [reflexivity|]. split; [reflexivity|].
  intros post Hpost. unfold merge_uploaded in Hpost. rewrite list_lookup_imap in Hpost.
  destruct (posts !! i) as [p|]; [|discriminate]. simpl in Hpost.
  rewrite Hname in Hpost. injection Hpost as <-. apply dict_get_set_eq.
Qed.

Lemma uploaded_image_replaces_generated_witness :
  (uploaded_images
     (sess (snd (upload_image Sample.ascii_runtime (Sample.scripted Runs.two_tags)
                   Forms.png_upload Sample.initial)))
   = Some {[ lit "1" := lit "uuid-0.png" ]}
   /\ ({[ lit "1" := lit "uuid-0.png" ]} : gmap pystr pystr) !! str_of_Z (Z.of_nat 1)
      = Some (lit "uuid-0.png")
   /\ generation_fails Sample.ascii_runtime (Sample.scripted Runs.two_tags) Forms.two_posts
        (snd (upload_image Sample.ascii_runtime (Sample.scripted Runs.two_tags)
                Forms.png_upload Sample.initial)) = false)
  /\ exists posts,
       current_posts
         (sess (snd (generate_posts Sample.ascii_runtime (Sample.scripted Runs.two_tags)
                       Forms.two_posts
                       (snd (upload_image Sample.ascii_runtime (Sample.scripted Runs.two_tags)
                               Forms.png_upload Sample.initial))))) = Some posts
       /\ forall post, posts !! 1%nat = Some post ->
            Dict.get (lit "image_url") post
            = Some (PStr (lit "/uploaded_image/" ++ lit "uuid-0.png")).
Proof.
  assert (H1 : uploaded_images
                 (sess (snd (upload_image Sample.ascii_runtime (Sample.scripted Runs.two_tags)
                               Forms.png_upload Sample.initial)))
               = Some {[ lit "1" := lit "uuid-0.png" ]}) by reflexivity.
  assert (H2 : ({[ lit "1" := lit "uuid-0.png" ]} : gmap pystr pystr)
                 !! str_of_Z (Z.of_nat 1) = Some (lit "uuid-0.png")) by reflexivity.
  assert (H3 : generation_fails Sample.ascii_runtime (Sample.scripted Runs.two_tags)
                 Forms.two_posts
                 (snd (upload_image Sample.ascii_runtime (Sample.scripted Runs.two_tags)
                         Forms.png_upload Sample.initial)) = false)
    by (vm_compute; reflexivity).
  split; [split; [exact H1 | split; [exact H2 | exact H3]]|].
  destruct (uploaded_image_replaces_generated _ _ _ _ _ _ _ H1 H2 H3) as (posts & Hp & _ & Hi).
  exists posts. split; [exact Hp | exact Hi].
Defined.

Lemma generate_multiple_length (rt : runtime) (ext : services) (menu_text : pystr) (n : Z)
    (language : pystr) (ab_test_mode : bool) (st st' : state) (posts : list Dict.dict) :
  generate_multiple_social_media_posts rt ext menu_text n language ab_test_mode st
  = (Returned posts, st') ->
  (0 <= n)%Z ->
  length posts = Z.to_nat (if ab_test_mode then 2 * n else n).
Proof.
  intros Hrun Hn.
  destruct (generate_multiple_parts rt ext _ _ _ _ _ _ _ Hrun)
    as (items & cleaned & fallbacks & _ & _ & _ & Hlen & -> & _).
  assert (Hneeded : actual_posts_needed n ab_test_mode
                    = Z.of_nat (Z.to_nat (if ab_test_mode then 2 * n else n))).
  { unfold actual_posts_needed. destruct ab_test_mode; lia. }
  rewrite Hneeded in *. apply Nat2Z.inj. apply slice_to_length.
  rewrite length_app. lia.
Qed.

(** X15. A request to /generate that goes through stores in the session
    what it renders: the same list of posts, the menu text of the form
    with the white space around it stripped and the language of the form
    ("english" when the form has none); the uploaded images and the flash
    messages of the session stay as they were. *)
Theorem generate_posts_stores_what_it_renders (rt : runtime) (ext : services)
    (form : generate_form) (st : state) :
  generation_fails rt ext form st = false ->
  exists posts rendered st',
    generate_posts rt ext form st
    = (Returned (RenderTemplate (lit "results.html") rendered), st')
    /\ Dict.get (lit "posts") rendered = Some (PList (map PDict posts))
    /\ Dict.get (lit "menu_text") rendered
       = Some (PStr (py_strip (default [] (form_menu_text form))))
    /\ Dict.get (lit "language") rendered
       = Some (PStr (default (lit "english") (form_language form)))
    /\ current_posts (sess st') = Some posts
    /\ current_menu_text (sess st') = Some (py_strip (default [] (form_menu_text form)))
    /\ current_language (sess st') = Some (default (lit "english") (form_language form))
    /\ uploaded_images (sess st') = uploaded_images (sess st)
    /\ flashes (sess st') = flashes (sess st).
Proof.
  intros Hgoes.
  pose proof (generate_posts_runs rt ext form st) as H. rewrite Hgoes in H.
  destruct H as (n & posts & st1 & _ & _ & _ & Hrun). cbv zeta in Hrun.
  destruct Hrun as [Hrun Hs].
  do 3 eexists. split; [exact Hrun|]. simpl. rewrite Hs.
  repeat split; reflexivity.
Qed.

Lemma generate_posts_stores_what_it_renders_witness :
  generation_fails Sample.ascii_runtime (Sample.scripted Runs.two_tags) Forms.two_posts
    Sample.initial = false
  /\ exists posts rendered st',
       generate_posts Sample.ascii_runtime (Sample.scripted Runs.two_tags) Forms.two_posts
         Sample.initial = (Returned (RenderTemplate (lit "results.html") rendered), st')
       /\ Dict.get (lit "posts") rendered = Some (PList (map PDict posts))
       /\ current_posts (sess st') = Some posts
       /\ current_menu_text (sess st')
          = Some (py_strip (default [] (form_menu_text Forms.two_posts)))
       /\ current_language (sess st')
          = Some (default (lit "english") (form_language Forms.two_posts)).
Proof.
  assert (H : generation_fails Sample.ascii_runtime (Sample.scripted Runs.two_tags)
                Forms.two_posts Sample.initial = false) by (vm_compute; reflexivity).
  split; [exact H|].
  destruct (generate_posts_stores_what_it_renders _ _ _ _ H)
    as (posts & rendered & st' & H1 & H2 & _ & _ & H3 & H4 & H5 & _).
  exists posts, rendered, st'.
  split; [exact H1 | split; [exact H2 | split; [exact H3 | split; [exact H4 | exact H5]]]].
Defined.

(** X16. A completion that fails or is malformed is reported as a bad
    number: the generator turns every failure into a [ValueError], and
    the handler takes every [ValueError] for that of [int()], so for a
    valid form the user is told "Invalid number of posts. Please enter a
    valid number." and sent back to the form. *)
Theorem completion_failure_flashed_as_invalid_number (rt : runtime) (ext : services)
    (form : generate_form) (st : state) (n : Z) :
  requested_num_posts rt form = Some n ->
  stripped_menu_text form <> [] ->
  (1 <= n <= 10)%Z ->
  response_items (chat_completion ext (completion_calls st)
                    (build_prompt (stripped_menu_text form) n (form_language_or_default form)
                       (form_ab_test form))) = None ->
  generate_posts rt ext form st
  = (Returned (Redirect (lit "index")),
     flashed (lit "Invalid number of posts. Please enter a valid number.")
       (tick_completion st)).
Proof.
  intros Hn Hmenu Hrange Hnone.
  rewrite generate_posts_paths. cbv zeta. rewrite Hn.
  apply pystr_eqb_neq in Hmenu. rewrite Hmenu.
  assert (Hin : ((n <? 1)%Z || (10 <? n)%Z) = false).
  { apply orb_false_iff. split; apply Z.ltb_ge; lia. }
  rewrite Hin.
  destruct (generate_multiple_runs rt ext (stripped_menu_text form) n
              (form_language_or_default form) (form_ab_test form) st) as [_ Herr].
  destruct (Herr Hnone) as [msg ->]. reflexivity.
Qed.

Lemma completion_failure_flashed_as_invalid_number_witness :
  (requested_num_posts Sample.ascii_runtime Forms.two_posts = Some 2%Z
   /\ stripped_menu_text Forms.two_posts <> []
   /\ (1 <= 2 <= 10)%Z
   /\ response_items
        (chat_completion (Sample.scripted CompletionFails) (completion_calls Sample.initial)
           (build_prompt (stripped_menu_text Forms.two_posts) 2
              (form_language_or_default Forms.two_posts) (form_ab_test Forms.two_posts)))
      = None)
  /\ generate_posts Sample.ascii_runtime (Sample.scripted CompletionFails) Forms.two_posts
       Sample.initial
     = (Returned (Redirect (lit "index")),
        flashed (lit "Invalid number of posts. Please enter a valid number.")
          (tick_completion Sample.initial)).
Proof.
  assert (H1 : requested_num_posts Sample.ascii_runtime Forms.two_posts = Some 2%Z)
    by (vm_compute; reflexivity).
  assert (H2 : stripped_menu_text Forms.two_posts <> []) by (vm_compute; discriminate).
  assert (H3 : (1 <= 2 <= 10)%Z) by lia.
  assert (H4 : response_items
                 (chat_completion (Sample.scripted CompletionFails)
                    (completion_calls Sample.initial)
                    (build_prompt (stripped_menu_text Forms.two_posts) 2
                       (form_language_or_default Forms.two_posts)
                       (form_ab_test Forms.two_posts))) = None) by reflexivity.
  split; [split; [exact H1 | split; [exact H2 | split; [exact H3 | exact H4]]]|].
  exact (completion_failure_flashed_as_invalid_number _ _ _ _ _ H1 H2 H3 H4).
Defined.

(** X17. A request to /generate adds at most one flash message, and
    never "Failed to generate posts. Please try again.": the generator
    asked for one post or more returns one post or more, or raises, so
    the test for an empty list after it cannot succeed. *)
Theorem failed_to_generate_never_flashed (rt : runtime) (ext : services)
    (form : generate_form) (st : state) :
  exists added,
    flashes (sess (snd (generate_posts rt ext form st))) = flashes (sess st) ++ added
    /\ (length added <= 1)%nat
    /\ forall category,
         (category, lit "Failed to generate posts. Please try again.") ∉ added.
Proof.
  assert (Hflashed : forall message st0,
            sess st0 = sess st ->
            message <> lit "Failed to generate posts. Please try again." ->
            exists added,
              flashes (sess (flashed message st0)) = flashes (sess st) ++ added
              /\ (length added <= 1)%nat
              /\ forall category,
                   (category, lit "Failed to generate posts. Please try again.") ∉ added).
  { intros message st0 Hs Hmsg. exists [(lit "error", message)]. simpl. rewrite Hs.
    split; [reflexivity|]. split; [lia|].
    intros category Hin. apply list_elem_of_singleton in Hin. congruence. }
  rewrite generate_posts_paths. cbv zeta.
  destruct (requested_num_posts rt form) as [n|]; [|apply Hflashed; [reflexivity|discriminate]].
  destruct (pystr_eqb _ []); [apply Hflashed; [reflexivity|discriminate]|].
  destruct ((n <? 1)%Z || (10 <? n)%Z) eqn:Hrange;
    [apply Hflashed; [reflexivity|discriminate]|].
  apply orb_false_iff in Hrange as [Hlo _]. apply Z.ltb_ge in Hlo.
  pose proof (generate_multiple_keeps_session rt ext (stripped_menu_text form) n
                (form_language_or_default form) (form_ab_test form) st) as Hs.
  destruct (generate_multiple_social_media_posts _ _ _ _ _ _ _)
    as [[[|post posts]|e] st1] eqn:Hrun; simpl in Hs.
  - destruct (generated_posts_nonempty rt ext _ _ _ _ _ _ _ Hlo Hrun eq_refl).
  - exists []. simpl. rewrite Hs, app_nil_r.
    split; [reflexivity|]. split; [lia|]. intros category Hin. apply elem_of_nil in Hin.
    exact Hin.
  - apply Hflashed; [exact Hs|]. destruct e; discriminate.
Qed.

(** X18. A request to /generate that goes through renders and stores as
    many posts as the form asks for (three when the form has no
    "num_posts" field), and twice as many when its "ab_test_mode" field
    is "on"; the images uploaded before do not change the number. *)
Theorem generate_posts_stores_requested_number (rt : runtime) (ext : services)
    (form : generate_form) (st : state) :
  generation_fails rt ext form st = false ->
  exists n posts,
    requested_num_posts rt form = Some n
    /\ (form_num_posts form = None -> n = 3%Z)
    /\ current_posts (sess (snd (generate_posts rt ext form st))) = Some posts
    /\ length posts
       = Z.to_nat (if bool_decide (form_ab_test_mode form = Some (lit "on"))
                   then 2 * n else n).
Proof.
  intros Hgoes.
  pose proof (generate_posts_runs rt ext form st) as H. rewrite Hgoes in H.
  destruct H as (n & posts & st1 & Hn & Hrun & _ & Hrender). cbv zeta in Hrender.
  destruct Hrender as [-> _].
  assert (Hpos : (1 <= n)%Z).
  { unfold generation_fails in Hgoes. rewrite Hn in Hgoes.
    apply orb_false_iff in Hgoes as [Hgoes _]. apply orb_false_iff in Hgoes as [_ Hrange].
    apply orb_false_iff in Hrange as [Hlo _]. apply Z.ltb_ge in Hlo. exact Hlo. }
  exists n. eexists. split; [exact Hn|]. split.
  - intros Hnone. unfold requested_num_posts in Hn. rewrite Hnone in Hn. congruence.
  - split; [reflexivity|]. unfold merge_uploaded. rewrite length_imap.
    apply (generate_multiple_length rt ext _ _ _ _ _ _ _ Hrun). lia.
Qed.

Lemma generate_posts_stores_requested_number_witness :
  generation_fails Sample.ascii_runtime (Sample.scripted Runs.two_tags) Forms.two_posts
    Sample.initial = false
  /\ exists n posts,
       requested_num_posts Sample.ascii_runtime Forms.two_posts = Some n
       /\ current_posts
            (sess (snd (generate_posts Sample.ascii_runtime (Sample.scripted Runs.two_tags)
                          Forms.two_posts Sample.initial))) = Some posts
       /\ length posts
          = Z.to_nat (if bool_decide (form_ab_test_mode Forms.two_posts = Some (lit "on"))
                      then 2 * n else n).
Proof.
  assert (H : generation_fails Sample.ascii_runtime (Sample.scripted Runs.two_tags)
                Forms.two_posts Sample.initial = false) by (vm_compute; reflexivity).
  split; [exact H|].
  destruct (generate_posts_stores_requested_number _ _ _ _ H) as (n & posts & H1 & _ & H2 & H3).
  exists n, posts. split; [exact H1 | split; [exact H2 | exact H3]].
Defined.

(** ** Three hashtags, in the session too *)

Lemma three_tags_set_image (v : pyval) (post : Dict.dict) :
  three_tags post -> three_tags (Dict.set (lit "image_url") v post).
Proof.
  intros (a & b & c & H). exists a, b, c. rewrite dict_get_set_ne; [exact H | reflexivity].
Qed.

Lemma merge_uploaded_three (uploaded : gmap pystr pystr) (posts : list Dict.dict) :
  Forall three_tags posts -> Forall three_tags (merge_uploaded uploaded posts).
Proof.
  intros H. apply Forall_lookup. intros i post Hi.
  unfold merge_uploaded in Hi. rewrite list_lookup_imap in Hi.
  destruct (posts !! i) as [p|] eqn:Hp; [|discriminate]. simpl in Hi.
  pose proof (proj1 (Forall_lookup _ _) H i p Hp) as Hthree.
  destruct (uploaded !! _); injection Hi as <-;
    [apply three_tags_set_image|]; exact Hthree.
Qed.

Lemma posts_made_three (rt : runtime) (ext : services) (n : nat) (posts : list Dict.dict) :
  posts_made rt ext n posts -> Forall three_tags posts.
Proof.
  intros H. apply Forall_lookup. intros i post Hi.
  destruct (H i post Hi) as [(tags & Hget & Htags) _].
  destruct (generated_tags_three rt tags Htags) as (a & b & c & ->).
  exists a, b, c. exact Hget.
Qed.

Lemma export_posts_keeps_session_data (rt : runtime) (ext : services)
    (arg_format : option pystr) (st : state) :
  current_posts (sess (snd (export_posts rt ext arg_format st))) = current_posts (sess st)
  /\ uploaded_images (sess (snd (export_posts rt ext arg_format st)))
     = uploaded_images (sess st).
Proof.
  destruct (export_posts_state rt ext arg_format st) as [-> | [-> | ->]]; split; reflexivity.
Qed.

(** X19. The posts kept in the session always have exactly three
    hashtag strings: [generate_posts] stores only such posts, also after
    it has merged uploaded images into them, [upload_image] changes no
    hashtag and [export_posts] changes no post. *)
Theorem session_posts_keep_three_hashtags (rt : runtime) (ext : services) (st : state) :
  session_three_tags (sess st) ->
  (forall form, session_three_tags (sess (snd (generate_posts rt ext form st))))
  /\ (forall req, session_three_tags (sess (snd (upload_image rt ext req st))))
  /\ (forall arg_format,
        session_three_tags (sess (snd (export_posts rt ext arg_format st)))).
Proof.
  intros Hst. split; [|split].
  - intros form. rewrite generate_posts_paths. cbv zeta.
    destruct (requested_num_posts rt form) as [n|]; [|exact Hst].
    destruct (pystr_eqb _ []); [exact Hst|].
    destruct (_ || _); [exact Hst|].
    pose proof (generate_multiple_keeps_session rt ext (stripped_menu_text form) n
                  (form_language_or_default form) (form_ab_test form) st) as Hs.
    destruct (generate_multiple_social_media_posts _ _ _ _ _ _ _)
      as [[[|post posts]|e] st1] eqn:Hrun; simpl in Hs.
    + intros posts Hp. simpl in Hp. rewrite Hs in Hp. exact (Hst posts Hp).
    + intros merged [= <-]. apply merge_uploaded_three.
      destruct (generate_multiple_posts_made rt ext _ _ _ _ _ _ _ Hrun) as [Hmade _].
      exact (posts_made_three rt ext _ _ Hmade).
    + intros posts Hp. simpl in Hp. rewrite Hs in Hp. exact (Hst posts Hp).
  - intros req. destruct (upload_accepts rt req) eqn:Hacc.
    + destruct (upload_image_accepted rt ext req st Hacc) as (file & e & _ & _ & _ & Hrun).
      cbv zeta in Hrun. rewrite Hrun. intros posts' Hp. simpl in Hp.
      destruct (current_posts (sess st)) as [posts|] eqn:Hposts; [|discriminate].
      injection Hp as <-. unfold set_post_image.
      destruct (_ <? _)%nat; [|exact (Hst posts Hposts)].
      destruct (posts !! post_index req) as [p|] eqn:Hp; [|exact (Hst posts Hposts)].
      apply Forall_insert; [exact (Hst posts Hposts)|]. apply three_tags_set_image.
      exact (proj1 (Forall_lookup _ _) (Hst posts Hposts) _ _ Hp).
    + pose proof (upload_image_runs rt ext req st) as H. cbv zeta in H.
      rewrite Hacc in H. destruct H as [_ ->]. exact Hst.
  - intros arg_format posts Hp.
    rewrite (proj1 (export_posts_keeps_session_data rt ext arg_format st)) in Hp.
    exact (Hst posts Hp).
Qed.

Lemma session_posts_keep_three_hashtags_witness :
  session_three_tags (sess Served.served)
  /\ (forall req,
        session_three_tags
          (sess (snd (upload_image Sample.ascii_runtime (Sample.scripted Runs.four_tags) req
                        Served.served))))
  /\ (forall form,
        session_three_tags
          (sess (snd (generate_posts Sample.ascii_runtime (Sample.scripted Runs.four_tags) form
                        Served.served)))).
Proof.
  assert (H : session_three_tags (sess Served.served)).
  { intros posts Hp. vm_compute in Hp. injection Hp as <-.
    repeat (apply Forall_cons_2; [do 3 eexists; reflexivity|]). apply Forall_nil_2. }
  split; [exact H|].
  destruct (session_posts_keep_three_hashtags Sample.ascii_runtime
              (Sample.scripted Runs.four_tags) Served.served H) as (Hgen & Hup & _).
  split; [exact Hup | exact Hgen].
Defined.

(** ** Hashtags, trimmed *)

(** X20. Every hashtag of every post returned by the generator is a
    string that is not empty, does not begin with a hash sign and does
    not end with white space. *)
Theorem hashtags_nonempty_hashless_right_trimmed (rt : runtime) (ext : services)
    (menu_text : pystr) (num_posts : Z) (language : pystr) (ab_test_mode : bool)
    (st st' : state) (posts : list Dict.dict) :
  generate_multiple_social_media_posts rt ext menu_text num_posts language ab_test_mode st
  = (Returned posts, st') ->
  forall post tag,
    post ∈ posts -> PStr tag ∈ hashtags_of post ->
    tag <> []
    /\ head tag <> Some 35
    /\ forall c, last tag = Some c -> is_space c = false.
Proof.
  intros Hrun post tag Hpost Htag.
  pose proof (returned_hashtags_trimmed rt ext _ _ _ _ _ _ _ Hrun) as Hall.
  rewrite Forall_forall in Hall. destruct (Hall post Hpost) as (tags & Hget & Htags).
  unfold hashtags_of in Htag. rewrite Hget in Htag.
  apply list_elem_of_fmap in Htag as (t & [= <-] & Hin).
  rewrite Forall_forall in Htags. destruct (Htags tag Hin) as (Hne & Hhead & Hlast).
  split; [exact Hne|]. split; [|exact Hlast].
  intros H. exact (Hhead 35 H eq_refl).
Qed.

Lemma hashtags_nonempty_hashless_right_trimmed_witness :
  Runs.generate Runs.spaced_tag 1 false
  = (Returned (Runs.posts_of (Runs.generate Runs.spaced_tag 1 false)),
     snd (Runs.generate Runs.spaced_tag 1 false))
  /\ forall post tag,
       post ∈ Runs.posts_of (Runs.generate Runs.spaced_tag 1 false) ->
       PStr tag ∈ hashtags_of post ->
       tag <> []
       /\ head tag <> Some 35
       /\ forall c, last tag = Some c -> is_space c = false.
Proof.
  assert (H : Runs.generate Runs.spaced_tag 1 false
              = (Returned (Runs.posts_of (Runs.generate Runs.spaced_tag 1 false)),
                 snd (Runs.generate Runs.spaced_tag 1 false))) by (vm_compute; reflexivity).
  split; [exact H|].
  exact (hashtags_nonempty_hashless_right_trimmed _ _ _ _ _ _ _ _ _ H).
Defined.
